(** * python-jgrapht: the host-side layer over the native JGraphT engine

    A shallow embedding of the Python sources

      - [jgrapht/generators.py]          (module [Generators])
      - [jgrapht/io/edgelist.py]          (module [Edgelist])
      - [jgrapht/_internals/_pg_paths.py] (module [PgPaths])

    Python code that calls the native backend is written in a state and
    exception monad: the state holds what the host can observe of the
    world (the log of native calls, the clock), an exception leaves the
    state as it was when it was raised. The native engine is an oracle
    that the functions take as an argument. *)

From Stdlib Require Import ZArith Floats.
From stdpp Require Import gmap strings list.

Open Scope Z_scope.

(** ** Python values shared by the modules *)

(** Opaque native handles are integers handed out by the engine. *)
Definition handle := Z.

(** The Python exceptions that occur in the embedded code. [ValueError] is
    what the docstrings of [generators.py] announce for invalid parameters;
    [NativeError] stands for any other failure the backend reports;
    [UnknownVertex] is the failure of the registry on an identifier it
    does not hold. *)
Inductive exn :=
| KeyError
| ValueError
| OverflowError
| AttributeError
| UnicodeEncodeError
| NotImplementedError (msg : string)
| NativeError (code : Z)
| UnknownVertex.

Inductive result (A : Type) :=
| Ok (a : A)
| Raise (e : exn).
Arguments Ok {A} a.
Arguments Raise {A} e.

(** ** The state and exception monad *)

Definition M (S A : Type) : Type := S -> result A * S.

Definition ret {S A} (a : A) : M S A := fun s => (Ok a, s).

Definition raise {S A} (e : exn) : M S A := fun s => (Raise e, s).

Definition bind {S A B} (c : M S A) (k : A -> M S B) : M S B :=
  fun s =>
    match c s with
    | (Ok a, s') => k a s'
    | (Raise e, s') => (Raise e, s')
    end.

Definition gets {S A} (f : S -> A) : M S A := fun s => (Ok (f s), s).

Definition modify {S} (f : S -> S) : M S unit := fun s => (Ok tt, f s).

(** Lifting of a pure computation that may raise. *)
Definition lift {S A} (r : result A) : M S A := fun s => (r, s).

Lemma bind_ret_l {S A B} (a : A) (k : A -> M S B) (s : S) : bind (ret a) k s = k a s.
Proof. reflexivity. Qed.

Lemma bind_ret_r {S A} (c : M S A) (s : S) : bind c ret s = c s.
Proof. unfold bind, ret. destruct (c s) as [[a | e] s']; reflexivity. Qed.

Lemma bind_assoc {S A B C} (c : M S A) (k : A -> M S B) (k' : B -> M S C) (s : S) :
  bind (bind c k) k' s = bind c (fun a => bind (k a) k') s.
Proof. unfold bind. destruct (c s) as [[a | e] s']; reflexivity. Qed.

(** An exception ends the computation: nothing after it runs. *)
Lemma bind_raise {S A B} (e : exn) (k : A -> M S B) (s : S) :
  bind (raise e) k s = (Raise e, s).
Proof. reflexivity. Qed.

Declare Scope py_scope.
Delimit Scope py_scope with py.
Notation "'let*' x := c 'in' k" := (bind c (fun x => k))
  (at level 10, x name, c at level 100, k at level 200, only parsing) : py_scope.
Notation "'let*' ' p := c 'in' k" := (bind c (fun ' p => k))
  (at level 10, p pattern, c at level 100, k at level 200, only parsing) : py_scope.
Open Scope py_scope.

(** ** [int(x)] on a Python float

    Truncation toward zero; [OverflowError] on an infinity and [ValueError]
    on a NaN, as CPython's [float.__int__]. *)
Definition py_int_of_float (f : float) : result Z :=
  match Prim2SF f with
  | S754_zero _ => Ok 0
  | S754_infinity _ => Raise OverflowError
  | S754_nan => Raise ValueError
  | S754_finite s m e =>
      let mag := if 0 <=? e then Z.shiftl (Z.pos m) e else Z.shiftr (Z.pos m) (- e) in
      Ok (if s then - mag else mag)
  end.

(** * generators.py *)
Module Generators.

(** The native entry points [backend.jgrapht_generate_*] the module calls,
    each with the arguments it receives. *)
Inductive native_call :=
| jgrapht_generate_barabasi_albert (g : handle) (m0 m n seed : Z)
| jgrapht_generate_barabasi_albert_forest (g : handle) (t n seed : Z)
| jgrapht_generate_complete (g : handle) (n : Z)
| jgrapht_generate_bipartite_complete (g : handle) (a b : Z)
| jgrapht_generate_empty (g : handle) (n : Z)
| jgrapht_generate_gnm_random (g : handle) (n m : Z) (loops multiple_edges : bool) (seed : Z)
| jgrapht_generate_gnp_random (g : handle) (n : Z) (p : float) (loops : bool) (seed : Z)
| jgrapht_generate_ring (g : handle) (n : Z)
| jgrapht_generate_scalefree (g : handle) (n seed : Z)
| jgrapht_generate_watts_strogatz (g : handle) (n k : Z) (p : float) (add_instead_of_rewire : bool) (seed : Z)
| jgrapht_generate_kleinberg_smallworld (g : handle) (n p q r seed : Z).

(** What the host observes: the reading of [time.time()] and the native
    calls issued so far, oldest first. *)
Record world := World { clock : float; calls : list native_call }.

(** The graph argument; the generators only read its [handle]. *)
Record Graph := { graph_handle : handle }.

Section WithBackend.

(** The native engine: its answer to a call is [Ok tt] or an exception. *)
Variable backend : native_call -> result unit.

Definition call_backend (c : native_call) : M world unit :=
  fun w => (backend c, World (clock w) (calls w ++ [c])).

Definition time_time : M world float := gets clock.

(** [if seed is None: seed = int(time.time())] *)
Definition seed_or_time (seed : option Z) : M world Z :=
  match seed with
  | None => let* t := time_time in lift (py_int_of_float t)
  | Some s => ret s
  end.

Definition barabasi_albert_graph (graph : Graph) (m0 m n : Z) (seed : option Z) : M world unit :=
  let* seed := seed_or_time seed in
  call_backend (jgrapht_generate_barabasi_albert (graph_handle graph) m0 m n seed).

Definition barabasi_albert_forest (graph : Graph) (t n : Z) (seed : option Z) : M world unit :=
  let* seed := seed_or_time seed in
  call_backend (jgrapht_generate_barabasi_albert_forest (graph_handle graph) t n seed).

Definition complete_graph (graph : Graph) (n : Z) : M world unit :=
  call_backend (jgrapht_generate_complete (graph_handle graph) n).

Definition complete_bipartite_graph (graph : Graph) (a b : Z) : M world unit :=
  call_backend (jgrapht_generate_bipartite_complete (graph_handle graph) a b).

Definition empty_graph (graph : Graph) (n : Z) : M world unit :=
  call_backend (jgrapht_generate_empty (graph_handle graph) n).

Definition gnm_random_graph (graph : Graph) (n m : Z) (loops multiple_edges : bool)
    (seed : option Z) : M world unit :=
  let* seed := seed_or_time seed in
  call_backend (jgrapht_generate_gnm_random (graph_handle graph) n m loops multiple_edges seed).

Definition gnp_random_graph (graph : Graph) (n : Z) (p : float) (loops : bool)
    (seed : option Z) : M world unit :=
  let* seed := seed_or_time seed in
  call_backend (jgrapht_generate_gnp_random (graph_handle graph) n p loops seed).

Definition ring_graph (graph : Graph) (n : Z) : M world unit :=
  call_backend (jgrapht_generate_ring (graph_handle graph) n).

Definition scalefree_graph (graph : Graph) (n : Z) (seed : option Z) : M world unit :=
  let* seed := seed_or_time seed in
  call_backend (jgrapht_generate_scalefree (graph_handle graph) n seed).

Definition watts_strogatz_graph (graph : Graph) (n k : Z) (p : float)
    (add_instead_of_rewire : bool) (seed : option Z) : M world unit :=
  let* seed := seed_or_time seed in
  call_backend
    (jgrapht_generate_watts_strogatz (graph_handle graph) n k p add_instead_of_rewire seed).

Definition kleinberg_smallworld_graph (graph : Graph) (n p q r : Z) (seed : option Z)
    : M world unit :=
  let* seed := seed_or_time seed in
  call_backend (jgrapht_generate_kleinberg_smallworld (graph_handle graph) n p q r seed).

(** *** Facts *)

Lemma seed_or_time_some (s : Z) (w : world) : seed_or_time (Some s) w = (Ok s, w).
Proof. reflexivity. Qed.

Lemma seed_or_time_none (w : world) :
  seed_or_time None w = (py_int_of_float (clock w), w).
Proof. reflexivity. Qed.

(** A seeded generator is [seed_or_time] followed by one native call. *)
Lemma seeded_run (call : Z -> native_call) (seed : option Z) (w : world) (s : Z) :
  seed_or_time seed w = (Ok s, w) ->
  (let* seed := seed_or_time seed in call_backend (call seed)) w
  = (backend (call s), World (clock w) (calls w ++ [call s])).
Proof. intros Hs. unfold bind. rewrite Hs. reflexivity. Qed.

End WithBackend.

(** The seed handed to the native call of a seeded generator [gen] whose
    native call, as a function of the seed, is [call]: the supplied seed, or
    [int(time.time())] when none is supplied. *)
Definition seed_passed_through
    (backend : native_call -> result unit)
    (gen : option Z -> M world unit) (call : Z -> native_call) : Prop :=
  forall w : world,
    (forall s : Z,
        gen (Some s) w = (backend (call s), World (clock w) (calls w ++ [call s])))
    /\ (forall t : Z,
        py_int_of_float (clock w) = Ok t ->
        gen None w = (backend (call t), World (clock w) (calls w ++ [call t]))).

Lemma seed_passed_through_intro backend call :
  seed_passed_through backend
    (fun seed => let* seed := seed_or_time seed in call_backend backend (call seed)) call.
Proof.
  intros w; split.
  - intros s. now apply seeded_run.
  - intros t Ht. apply seeded_run. rewrite seed_or_time_none, Ht. reflexivity.
Qed.

(** A call is rejected by the host when it raises an exception, whichever
    it is, and the log of native calls is what it was. *)
Definition rejected_before_native (c : M world unit) (w : world) : Prop :=
  (exists e, fst (c w) = Raise e) /\ calls (snd (c w)) = calls w.

(** A backend that, like the engine, refuses a negative size. *)
Definition strict_backend (c : native_call) : result unit :=
  match c with
  | jgrapht_generate_complete _ n => if n <? 0 then Raise ValueError else Ok tt
  | _ => Ok tt
  end.

Example py_int_of_float_pos : py_int_of_float 1730628000.75%float = Ok 1730628000.
Proof. vm_compute. reflexivity. Qed.

Example py_int_of_float_neg : py_int_of_float (-3.5)%float = Ok (-3).
Proof. vm_compute. reflexivity. Qed.

Example py_int_of_float_inf : py_int_of_float infinity = Raise OverflowError.
Proof. vm_compute. reflexivity. Qed.

(** C3, as stated, fails: [complete_graph] with the vertex count -1 is not
    rejected before the native call, whatever the backend and the world
    are; the call [jgrapht_generate_complete] is always issued. *)
Lemma complete_graph_negative_reaches_native :
  ~ (exists backend w,
        rejected_before_native (complete_graph backend {| graph_handle := 7 |} (-1)) w).
Proof.
  intros (backend & w & _ & Hlog). cbn in Hlog.
  apply (f_equal length) in Hlog. rewrite length_app in Hlog. cbn in Hlog. lia.
Qed.

(** C3, amended: the generators do not validate their parameters. Every
    call of a generator hands its parameters unchanged to exactly one
    native call, and its outcome is the answer of the native engine to
    that call: an invalid parameter is reported by the native call, if the
    engine reports it, never before it. The one failure on the host is
    that of [int(time.time())] for a seeded generator called without a
    seed; no native call is made then. *)
Theorem generators_defer_to_native
    (backend : native_call -> result unit) (graph : Graph) (w : world) :
  let h := graph_handle graph in
  let after c := (backend c, World (clock w) (calls w ++ [c])) in
  let seeded call (seed : option Z) :=
    match seed with
    | Some s => after (call s)
    | None =>
        match py_int_of_float (clock w) with
        | Ok t => after (call t)
        | Raise e => (Raise e, w)
        end
    end in
  (forall n, complete_graph backend graph n w = after (jgrapht_generate_complete h n))
  /\ (forall a b, complete_bipartite_graph backend graph a b w
                 = after (jgrapht_generate_bipartite_complete h a b))
  /\ (forall n, empty_graph backend graph n w = after (jgrapht_generate_empty h n))
  /\ (forall n, ring_graph backend graph n w = after (jgrapht_generate_ring h n))
  /\ (forall m0 m n seed, barabasi_albert_graph backend graph m0 m n seed w
                         = seeded (jgrapht_generate_barabasi_albert h m0 m n) seed)
  /\ (forall t n seed, barabasi_albert_forest backend graph t n seed w
                      = seeded (jgrapht_generate_barabasi_albert_forest h t n) seed)
  /\ (forall n m l me seed, gnm_random_graph backend graph n m l me seed w
                           = seeded (jgrapht_generate_gnm_random h n m l me) seed)
  /\ (forall n p l seed, gnp_random_graph backend graph n p l seed w
                        = seeded (jgrapht_generate_gnp_random h n p l) seed)
  /\ (forall n seed, scalefree_graph backend graph n seed w
                    = seeded (jgrapht_generate_scalefree h n) seed)
  /\ (forall n k p a seed, watts_strogatz_graph backend graph n k p a seed w
                          = seeded (jgrapht_generate_watts_strogatz h n k p a) seed)
  /\ (forall n p q r seed, kleinberg_smallworld_graph backend graph n p q r seed w
                          = seeded (jgrapht_generate_kleinberg_smallworld h n p q r) seed).
Proof.
  cbv zeta. repeat apply conj; intros; try reflexivity;
    match goal with
    | seed : option Z |- _ => destruct seed as [s |]; [reflexivity |]
    end;
    unfold barabasi_albert_graph, barabasi_albert_forest, gnm_random_graph,
      gnp_random_graph, scalefree_graph, watts_strogatz_graph, kleinberg_smallworld_graph,
      bind; rewrite seed_or_time_none;
    destruct (py_int_of_float (clock w)); reflexivity.
Qed.

(** C7: every seeded generator passes a supplied seed unchanged to its
    native call, and passes [int(time.time())], the clock truncated to an
    integer, when the seed is [None]. *)
Theorem seeded_generators_pass_seed
    (backend : native_call -> result unit) (graph : Graph) :
  let h := graph_handle graph in
  (forall m0 m n,
      seed_passed_through backend (barabasi_albert_graph backend graph m0 m n)
        (jgrapht_generate_barabasi_albert h m0 m n))
  /\ (forall t n,
      seed_passed_through backend (barabasi_albert_forest backend graph t n)
        (jgrapht_generate_barabasi_albert_forest h t n))
  /\ (forall n m loops multiple_edges,
      seed_passed_through backend (gnm_random_graph backend graph n m loops multiple_edges)
        (jgrapht_generate_gnm_random h n m loops multiple_edges))
  /\ (forall n p loops,
      seed_passed_through backend (gnp_random_graph backend graph n p loops)
        (jgrapht_generate_gnp_random h n p loops))
  /\ (forall n,
      seed_passed_through backend (scalefree_graph backend graph n)
        (jgrapht_generate_scalefree h n))
  /\ (forall n k p add_instead_of_rewire,
      seed_passed_through backend
        (watts_strogatz_graph backend graph n k p add_instead_of_rewire)
        (jgrapht_generate_watts_strogatz h n k p add_instead_of_rewire))
  /\ (forall n p q r,
      seed_passed_through backend (kleinberg_smallworld_graph backend graph n p q r)
        (jgrapht_generate_kleinberg_smallworld h n p q r)).
Proof.
  cbv zeta. repeat apply conj; intros;
    match goal with
    | |- seed_passed_through _ _ ?call => exact (seed_passed_through_intro backend call)
    end.
Qed.

(** The clock reads 1730628000.75 and no seed is given: the G(n,p)
    generator calls the engine with the seed 1730628000. *)
Lemma seeded_generators_pass_seed_witness :
  let w := World 1730628000.75%float [] in
  gnp_random_graph strict_backend {| graph_handle := 7 |} 10 0.5%float false None w
  = (Ok tt,
     World 1730628000.75%float [jgrapht_generate_gnp_random 7 10 0.5%float false 1730628000]).
Proof.
  cbv zeta.
  destruct (seeded_generators_pass_seed strict_backend {| graph_handle := 7 |})
    as (_ & _ & _ & Hgnp & _).
  destruct (Hgnp 10 0.5%float false (World 1730628000.75%float [])) as [_ Hnone].
  apply (Hnone 1730628000). vm_compute. reflexivity.
Defined.

End Generators.

(** * io/edgelist.py *)
Module Edgelist.

(** ** Python strings and their UTF-8 encoding *)

(** A Python [str] is a sequence of Unicode code points. *)
Definition pystr := list Z.

(** The UTF-8 bytes of one code point, as [str.encode] computes them in
    strict mode: lone surrogates are refused. *)
Definition utf8_encode_char (c : Z) : result (list Z) :=
  if (c <? 0) || (0x10FFFF <? c) then Raise UnicodeEncodeError
  else if c <? 0x80 then Ok [c]
  else if c <? 0x800 then
    Ok [Z.lor 0xC0 (Z.shiftr c 6); Z.lor 0x80 (Z.land c 0x3F)]
  else if (0xD800 <=? c) && (c <=? 0xDFFF) then Raise UnicodeEncodeError
  else if c <? 0x10000 then
    Ok [Z.lor 0xE0 (Z.shiftr c 12);
        Z.lor 0x80 (Z.land (Z.shiftr c 6) 0x3F);
        Z.lor 0x80 (Z.land c 0x3F)]
  else
    Ok [Z.lor 0xF0 (Z.shiftr c 18);
        Z.lor 0x80 (Z.land (Z.shiftr c 12) 0x3F);
        Z.lor 0x80 (Z.land (Z.shiftr c 6) 0x3F);
        Z.lor 0x80 (Z.land c 0x3F)].

Fixpoint utf8_encode (s : pystr) : result (list Z) :=
  match s with
  | [] => Ok []
  | c :: s' =>
      match utf8_encode_char c with
      | Raise e => Raise e
      | Ok bs =>
          match utf8_encode s' with
          | Raise e => Raise e
          | Ok rest => Ok (bs ++ rest)
          end
      end
  end.

(** ** Values that cross the native boundary *)

Inductive pyval :=
| PyStr (s : pystr)
| PyByteArray (b : list Z)
| PyBool (b : bool)
| PyFPtr (addr : Z).

Definition is_host_string (v : pyval) : bool :=
  match v with PyStr _ => true | _ => false end.

(** What the host does, in order: conversions of a string to a byte
    buffer and calls of native functions with their arguments. *)
Inductive event :=
| EvEncode (s : pystr)
| EvNative (method : string) (args : list pyval).

Definition world := list event.

(** A native import function: from its arguments to the handle of an edge
    list, or a failure. *)
Definition native_fn := list pyval -> result handle.

Record _JGraphTEdgeTripleList := { etl_handle : handle }.

(** [bytearray(s, encoding="utf-8")] *)
Definition bytearray (s : pystr) : M world (list Z) :=
  fun w => (utf8_encode s, w ++ [EvEncode s]).

Definition call_native (method : string) (f : native_fn) (args : list pyval) : M world handle :=
  fun w => (f args, w ++ [EvNative method args]).

Section WithBackend.

(** The attributes of the [backend] module, by name. *)
Variable backend : gmap string native_fn.

Definition _import_edgelist (name : string) (with_attrs : bool)
    (filename_or_string : pystr) (args : list pyval) : M world _JGraphTEdgeTripleList :=
  let alg_method_name := "jgrapht_import_edgelist_" in
  let alg_method_name :=
    if with_attrs then alg_method_name +:+ "attrs_" else alg_method_name +:+ "noattrs_" in
  let alg_method_name := alg_method_name +:+ name in
  let* alg_method :=
    match backend !! alg_method_name with
    | Some f => ret f
    | None => raise (NotImplementedError ("Algorithm " +:+ name +:+ " not supported."))
    end in
  let* filename_or_string_as_bytearray := bytearray filename_or_string in
  let* res := call_native alg_method_name alg_method
                (PyByteArray filename_or_string_as_bytearray :: args) in
  ret {| etl_handle := res |}.

(** The callbacks and the two helpers of [_internals/_ioutils.py] that
    wrap them as C function pointers; the helpers are not part of the
    module and are taken as given. *)
Variable callback : Type.
Variable _create_wrapped_import_string_id_callback : callback -> Z * callback.
Variable _create_wrapped_attribute_callback : option callback -> Z * option callback.

Definition read_edgelist_json (filename : pystr) (import_id_cb : callback)
    (vertex_attribute_cb edge_attribute_cb : option callback) : M world _JGraphTEdgeTripleList :=
  let '(import_id_f_ptr, _) := _create_wrapped_import_string_id_callback import_id_cb in
  let '(with_attrs, args) :=
    match vertex_attribute_cb, edge_attribute_cb with
    | None, None => (false, [PyFPtr import_id_f_ptr])
    | _, _ =>
        let '(vertex_attribute_f_ptr, _) := _create_wrapped_attribute_callback vertex_attribute_cb in
        let '(edge_attribute_f_ptr, _) := _create_wrapped_attribute_callback edge_attribute_cb in
        (true, [PyFPtr import_id_f_ptr; PyFPtr vertex_attribute_f_ptr; PyFPtr edge_attribute_f_ptr])
    end in
  _import_edgelist "file_json" with_attrs filename args.

Definition parse_edgelist_json (input_string : pystr) (import_id_cb : callback)
    (vertex_attribute_cb edge_attribute_cb : option callback) : M world _JGraphTEdgeTripleList :=
  let '(import_id_f_ptr, _) := _create_wrapped_import_string_id_callback import_id_cb in
  let '(with_attrs, args) :=
    match vertex_attribute_cb, edge_attribute_cb with
    | None, None => (false, [PyFPtr import_id_f_ptr])
    | _, _ =>
        let '(vertex_attribute_f_ptr, _) := _create_wrapped_attribute_callback vertex_attribute_cb in
        let '(edge_attribute_f_ptr, _) := _create_wrapped_attribute_callback edge_attribute_cb in
        (true, [PyFPtr import_id_f_ptr; PyFPtr vertex_attribute_f_ptr; PyFPtr edge_attribute_f_ptr])
    end in
  _import_edgelist "string_json" with_attrs input_string args.

Definition read_edgelist_gexf (filename : pystr) (import_id_cb : callback)
    (validate_schema : bool)
    (vertex_attribute_cb edge_attribute_cb : option callback) : M world _JGraphTEdgeTripleList :=
  let '(import_id_f_ptr, _) := _create_wrapped_import_string_id_callback import_id_cb in
  let '(with_attrs, args) :=
    match vertex_attribute_cb, edge_attribute_cb with
    | None, None => (false, [PyFPtr import_id_f_ptr; PyBool validate_schema])
    | _, _ =>
        let '(vertex_attribute_f_ptr, _) := _create_wrapped_attribute_callback vertex_attribute_cb in
        let '(edge_attribute_f_ptr, _) := _create_wrapped_attribute_callback edge_attribute_cb in
        (true, [PyFPtr import_id_f_ptr; PyBool validate_schema;
                PyFPtr vertex_attribute_f_ptr; PyFPtr edge_attribute_f_ptr])
    end in
  _import_edgelist "file_gexf" with_attrs filename args.

Definition parse_edgelist_gexf (input_string : pystr) (import_id_cb : callback)
    (validate_schema : bool)
    (vertex_attribute_cb edge_attribute_cb : option callback) : M world _JGraphTEdgeTripleList :=
  let '(import_id_f_ptr, _) := _create_wrapped_import_string_id_callback import_id_cb in
  let '(with_attrs, args) :=
    match vertex_attribute_cb, edge_attribute_cb with
    | None, None => (false, [PyFPtr import_id_f_ptr; PyBool validate_schema])
    | _, _ =>
        let '(vertex_attribute_f_ptr, _) := _create_wrapped_attribute_callback vertex_attribute_cb in
        let '(edge_attribute_f_ptr, _) := _create_wrapped_attribute_callback edge_attribute_cb in
        (true, [PyFPtr import_id_f_ptr; PyBool validate_schema;
                PyFPtr vertex_attribute_f_ptr; PyFPtr edge_attribute_f_ptr])
    end in
  _import_edgelist "string_gexf" with_attrs input_string args.

End WithBackend.

(** *** Facts about the encoding *)

Definition is_byte (b : Z) : Prop := 0 <= b < 256.

Lemma lor_is_byte (a b : Z) : is_byte a -> is_byte b -> is_byte (Z.lor a b).
Proof.
  unfold is_byte. intros [Ha0 Ha] [Hb0 Hb]. split.
  - now apply Z.lor_nonneg.
  - destruct (Z.eq_dec (Z.lor a b) 0) as [-> | Hnz]; [lia |].
    assert (0 < Z.lor a b) by (pose proof (proj2 (Z.lor_nonneg a b) (conj Ha0 Hb0)); lia).
    apply (Z.log2_lt_pow2 _ 8); [assumption |].
    rewrite Z.log2_lor by assumption.
    apply Z.max_lub_lt.
    + destruct (Z.eq_dec a 0) as [-> | ?]; [cbn; lia |]. apply Z.log2_lt_pow2; lia.
    + destruct (Z.eq_dec b 0) as [-> | ?]; [cbn; lia |]. apply Z.log2_lt_pow2; lia.
Qed.

Lemma continuation_is_byte (c : Z) : is_byte (Z.lor 0x80 (Z.land c 0x3F)).
Proof.
  apply lor_is_byte; [unfold is_byte; lia |].
  change 0x3F with (Z.ones 6). rewrite Z.land_ones by lia.
  unfold is_byte. pose proof (Z.mod_pos_bound c (2 ^ 6)). lia.
Qed.

Lemma leading_is_byte (tag c k bound : Z) :
  is_byte tag -> 0 <= k -> 0 <= c < bound * 2 ^ k -> 0 < bound <= 256 ->
  is_byte (Z.lor tag (Z.shiftr c k)).
Proof.
  intros Htag Hk [Hc0 Hc] Hb. apply lor_is_byte; [assumption |].
  rewrite Z.shiftr_div_pow2 by assumption. unfold is_byte. split.
  - apply Z.div_pos; lia.
  - apply Z.lt_le_trans with bound; [| lia].
    apply Z.div_lt_upper_bound; lia.
Qed.

Ltac each_byte :=
  repeat first [apply List.Forall_nil | apply List.Forall_cons];
  try apply continuation_is_byte.

(** Every element of an encoded code point is a byte. *)
Lemma utf8_encode_char_bytes (c : Z) (bs : list Z) :
  utf8_encode_char c = Ok bs -> Forall is_byte bs.
Proof.
  unfold utf8_encode_char.
  destruct (c <? 0) eqn:H0; [discriminate |].
  destruct (0x10FFFF <? c) eqn:Hmax; [discriminate |].
  apply Z.ltb_ge in H0, Hmax. cbn [orb].
  destruct (c <? 0x80) eqn:H1.
  { apply Z.ltb_lt in H1. intros [= <-]. each_byte. unfold is_byte; lia. }
  destruct (c <? 0x800) eqn:H2.
  { apply Z.ltb_lt in H2. intros [= <-].
    each_byte.
    apply (leading_is_byte _ _ _ 32); unfold is_byte; lia. }
  destruct ((0xD800 <=? c) && (c <=? 0xDFFF)); [discriminate |].
  destruct (c <? 0x10000) eqn:H3.
  { apply Z.ltb_lt in H3. intros [= <-].
    each_byte.
    apply (leading_is_byte _ _ _ 16); unfold is_byte; lia. }
  intros [= <-].
  each_byte.
  apply (leading_is_byte _ _ _ 8); unfold is_byte; lia.
Qed.

(** [bytearray(s, encoding="utf-8")] is a buffer of bytes. *)
Lemma utf8_encode_bytes (s : pystr) (bs : list Z) :
  utf8_encode s = Ok bs -> Forall is_byte bs.
Proof.
  revert bs. induction s as [| c s IH]; intros bs; cbn.
  - intros [= <-]. constructor.
  - destruct (utf8_encode_char c) as [b1 |] eqn:Hc; [| discriminate].
    destruct (utf8_encode s) as [rest |]; [| discriminate].
    intros [= <-]. apply Forall_app. split.
    + now apply utf8_encode_char_bytes with c.
    + now apply IH.
Qed.

(** An ASCII string is its own encoding. *)
Lemma utf8_encode_ascii (s : pystr) :
  Forall (fun c => 0 <= c < 0x80) s -> utf8_encode s = Ok s.
Proof.
  induction 1 as [| c s [Hc0 Hc] _ IH]; cbn; [reflexivity |].
  unfold utf8_encode_char.
  destruct (Z.ltb_spec c 0); [lia |]. destruct (Z.ltb_spec 0x10FFFF c); [lia |].
  destruct (Z.ltb_spec c 0x80); [| lia]. cbn. now rewrite IH.
Qed.

(** "hé€" followed by U+1F600. *)
Example utf8_encode_sample :
  utf8_encode [0x68; 0xE9; 0x20AC; 0x1F600]
  = Ok [0x68; 0xC3; 0xA9; 0xE2; 0x82; 0xAC; 0xF0; 0x9F; 0x98; 0x80].
Proof. reflexivity. Qed.

Example utf8_encode_surrogate : utf8_encode [0x61; 0xD800] = Raise UnicodeEncodeError.
Proof. reflexivity. Qed.

(** *** Facts about the import functions *)

(** The name [_import_edgelist] looks up in the backend. *)
Definition method_name (name : string) (with_attrs : bool) : string :=
  "jgrapht_import_edgelist_" +:+ (if with_attrs then "attrs_" else "noattrs_") +:+ name.

Lemma method_name_eq (name : string) (with_attrs : bool) :
  (if with_attrs then "jgrapht_import_edgelist_" +:+ "attrs_"
   else "jgrapht_import_edgelist_" +:+ "noattrs_") +:+ name
  = method_name name with_attrs.
Proof. destruct with_attrs; reflexivity. Qed.

(** The three ways a call of [_import_edgelist] can go. *)
Lemma _import_edgelist_unsupported (backend : gmap string native_fn) name with_attrs s args w :
  backend !! method_name name with_attrs = None ->
  _import_edgelist backend name with_attrs s args w
  = (Raise (NotImplementedError ("Algorithm " +:+ name +:+ " not supported.")), w).
Proof.
  intros Hb. unfold _import_edgelist. cbv zeta. rewrite method_name_eq.
  unfold bind. rewrite Hb. reflexivity.
Qed.

Lemma _import_edgelist_unencodable (backend : gmap string native_fn) name with_attrs s args w
    (f : native_fn) e :
  backend !! method_name name with_attrs = Some f ->
  utf8_encode s = Raise e ->
  _import_edgelist backend name with_attrs s args w = (Raise e, w ++ [EvEncode s]).
Proof.
  intros Hb He. unfold _import_edgelist. cbv zeta. rewrite method_name_eq.
  unfold bind. rewrite Hb. cbn. unfold bytearray. rewrite He. reflexivity.
Qed.

Lemma _import_edgelist_native (backend : gmap string native_fn) name with_attrs s args w
    (f : native_fn) b :
  backend !! method_name name with_attrs = Some f ->
  utf8_encode s = Ok b ->
  _import_edgelist backend name with_attrs s args w
  = (match f (PyByteArray b :: args) with
     | Ok res => Ok {| etl_handle := res |}
     | Raise e => Raise e
     end,
     w ++ [EvEncode s; EvNative (method_name name with_attrs) (PyByteArray b :: args)]).
Proof.
  intros Hb He. unfold _import_edgelist. cbv zeta. rewrite method_name_eq.
  unfold bind. rewrite Hb. cbn. unfold bytearray. rewrite He.
  unfold call_native. rewrite <- app_assoc. cbn.
  destruct (f (PyByteArray b :: args)); reflexivity.
Qed.

(** Whether a public import function has been given an attribute
    callback. *)
Definition wants_attrs {callback : Type}
    (vertex_attribute_cb edge_attribute_cb : option callback) : bool :=
  match vertex_attribute_cb, edge_attribute_cb with
  | None, None => false
  | _, _ => true
  end.

(** The string [s] crosses the native boundary as bytes in the import [c]
    of the format [name]. When the backend has the function of the
    format and [s] can be encoded, [c] converts [s] and then calls that
    very function, once, with the UTF-8 buffer of [s] as the first
    argument and no host string among the others, and the result of [c]
    is the answer of the function. When [s] cannot be encoded, [c] stops
    at the conversion and the function is not called. When the backend
    has no function of the format, nothing is converted and nothing is
    called. *)
Definition string_crosses_as_bytes (backend : gmap string native_fn)
    (name : string) (with_attrs : bool) (s : pystr)
    (c : M world _JGraphTEdgeTripleList) : Prop :=
  forall w : world,
    match backend !! method_name name with_attrs with
    | None => snd (c w) = w
    | Some f =>
        match utf8_encode s with
        | Raise e => c w = (Raise e, w ++ [EvEncode s])
        | Ok b =>
            Forall is_byte b
            /\ exists rest,
                forallb (fun v => negb (is_host_string v)) rest = true
                /\ c w
                   = (match f (PyByteArray b :: rest) with
                      | Ok res => Ok {| etl_handle := res |}
                      | Raise e => Raise e
                      end,
                      w ++ [EvEncode s;
                            EvNative (method_name name with_attrs) (PyByteArray b :: rest)])
        end
    end.

Lemma _import_edgelist_crosses (backend : gmap string native_fn) name with_attrs s args :
  forallb (fun v => negb (is_host_string v)) args = true ->
  string_crosses_as_bytes backend name with_attrs s
    (_import_edgelist backend name with_attrs s args).
Proof.
  intros Hargs w.
  destruct (backend !! method_name name with_attrs) as [f |] eqn:Hb.
  - destruct (utf8_encode s) as [b | e] eqn:He.
    + split; [now apply utf8_encode_bytes with s |].
      exists args. split; [assumption |].
      apply (_import_edgelist_native _ _ _ _ _ _ f b Hb He).
    + apply (_import_edgelist_unencodable _ _ _ _ _ _ f e Hb He).
  - now rewrite (_import_edgelist_unsupported _ _ _ _ _ _ Hb).
Qed.

(** C8: in every JSON or GEXF edge-list import, from a file or from a
    string, the file name or input string is converted by the host to its
    UTF-8 byte buffer before the native function of the format is called,
    the function receives that buffer, and no argument it receives is a
    host string. *)
Theorem import_string_crosses_as_bytes
    (backend : gmap string native_fn) (callback : Type)
    (wrap_id : callback -> Z * callback)
    (wrap_attr : option callback -> Z * option callback)
    (s : pystr) (import_id_cb : callback) (validate_schema : bool)
    (vertex_attribute_cb edge_attribute_cb : option callback) :
  let with_attrs := wants_attrs vertex_attribute_cb edge_attribute_cb in
  string_crosses_as_bytes backend "file_json" with_attrs s
    (read_edgelist_json backend callback wrap_id wrap_attr s import_id_cb
       vertex_attribute_cb edge_attribute_cb)
  /\ string_crosses_as_bytes backend "string_json" with_attrs s
    (parse_edgelist_json backend callback wrap_id wrap_attr s import_id_cb
       vertex_attribute_cb edge_attribute_cb)
  /\ string_crosses_as_bytes backend "file_gexf" with_attrs s
    (read_edgelist_gexf backend callback wrap_id wrap_attr s import_id_cb validate_schema
       vertex_attribute_cb edge_attribute_cb)
  /\ string_crosses_as_bytes backend "string_gexf" with_attrs s
    (parse_edgelist_gexf backend callback wrap_id wrap_attr s import_id_cb validate_schema
       vertex_attribute_cb edge_attribute_cb).
Proof.
  cbv zeta.
  unfold read_edgelist_json, parse_edgelist_json, read_edgelist_gexf, parse_edgelist_gexf.
  destruct (wrap_id import_id_cb) as [id_ptr ?].
  destruct (wrap_attr vertex_attribute_cb) as [v_ptr ?] eqn:Hv.
  destruct (wrap_attr edge_attribute_cb) as [e_ptr ?] eqn:He.
  repeat apply conj;
    destruct vertex_attribute_cb, edge_attribute_cb;
    rewrite ?Hv, ?He; apply _import_edgelist_crosses; reflexivity.
Qed.

(** C10: when the backend has no function for the format,
    [_import_edgelist] raises [NotImplementedError] and the log is
    unchanged: no conversion to bytes has taken place and no native
    function has been called. *)
Theorem import_unsupported_format
    (backend : gmap string native_fn) (name : string) (with_attrs : bool)
    (filename_or_string : pystr) (args : list pyval) (w : world) :
  backend !! method_name name with_attrs = None ->
  _import_edgelist backend name with_attrs filename_or_string args w
  = (Raise (NotImplementedError ("Algorithm " +:+ name +:+ " not supported.")), w).
Proof. apply _import_edgelist_unsupported. Qed.

(** A backend that knows the JSON importers only, asked for CSV with a
    string that could not even be encoded. *)
Definition json_only_backend : gmap string native_fn :=
  <["jgrapht_import_edgelist_noattrs_file_json" := fun _ => Ok 41]>
    (<["jgrapht_import_edgelist_noattrs_string_json" := fun _ => Ok 42]> ∅).

Lemma import_unsupported_format_witness :
  _import_edgelist json_only_backend "file_csv" false [0x61; 0xD800] [PyFPtr 1] []
  = (Raise (NotImplementedError "Algorithm file_csv not supported."), []).
Proof.
  apply (import_unsupported_format json_only_backend "file_csv" false).
  vm_compute. reflexivity.
Defined.

Example parse_edgelist_json_sample :
  parse_edgelist_json json_only_backend unit (fun cb => (1, cb)) (fun cb => (2, cb))
    [0x7B; 0xE9; 0x7D] tt None None []
  = (Ok {| etl_handle := 42 |},
     [EvEncode [0x7B; 0xE9; 0x7D];
      EvNative "jgrapht_import_edgelist_noattrs_string_json"
        [PyByteArray [0x7B; 0xC3; 0xA9; 0x7D]; PyFPtr 1]]).
Proof. vm_compute. reflexivity. Qed.

End Edgelist.

(** * _internals/_pg_paths.py *)
Module PgPaths.

(** ** Application identifiers and the property graph *)

(** Application-level identifiers of vertices and edges: hashable Python
    values, here integers and strings. An internal ID of the engine, when
    it is handed to the application as it is, is the integer [HInt]. *)
Inductive hashable :=
| HInt (z : Z)
| HStr (s : string).

#[global] Instance hashable_eq_dec : EqDecision hashable.
Proof. solve_decision. Defined.

#[global] Instance hashable_countable : Countable hashable :=
  inj_countable'
    (fun h => match h with HInt z => inl z | HStr s => inr s end)
    (fun x => match x with inl z => HInt z | inr s => HStr s end)
    (fun h => match h with HInt _ => eq_refl | HStr _ => eq_refl end).

(** The property graph: a native graph with the two directions of the ID
    registry for vertices and for edges. [_vertex_id_to_hash] is the
    dictionary [_pg_paths.py] reads. *)
Record PropertyGraph := {
  pg_handle : handle;
  _vertex_hash_to_id : gmap hashable Z;
  _vertex_id_to_hash : gmap Z hashable;
  _edge_hash_to_id : gmap hashable Z;
  _edge_id_to_hash : gmap Z hashable
}.

(** [d[k]] on a dictionary. *)
Definition dict_get `{Countable K} {V S} (d : gmap K V) (k : K) : M S V :=
  match d !! k with
  | Some v => ret v
  | None => raise KeyError
  end.

(** Modelled from the spec: [_pg.vertex_pg_to_g] is not among the sources.
    It is the registry's [encodeVertex] on a graph that requires its
    vertices to be registered beforehand (a path result is computed on
    the vertices the graph has; identifiers are created implicitly on the
    import path only): the internal ID recorded for the application
    identifier, and [UnknownVertex] for an identifier that is not
    registered. *)
Definition _vertex_pg_to_g {S} (graph : PropertyGraph) (vertex : hashable) : M S Z :=
  match _vertex_hash_to_id graph !! vertex with
  | Some k => ret k
  | None => raise UnknownVertex
  end.

(** Modelled from the spec: [_pg_wrappers._PropertyGraphEdgeIterator] is not
    among the sources. It is the Native Iterator Adapter over edges: every
    raw element of the native iterator is decoded through the registry of
    the graph. The native iterator is given by the sequence of raw IDs it
    yields, and [list(...)] of the adapter is the decoded sequence; the
    probes by which the adapter advances the native iterator are not
    recorded in the log of native calls. *)
Fixpoint list_PropertyGraphEdgeIterator {S} (eit : list Z) (graph : PropertyGraph)
    : M S (list hashable) :=
  match eit with
  | [] => ret []
  | e :: eit' =>
      let* x := dict_get (_edge_id_to_hash graph) e in
      let* xs := list_PropertyGraphEdgeIterator eit' graph in
      ret (x :: xs)
  end.

(** ** The native boundary *)

Inductive native_call :=
| jgrapht_handles_get_graphpath (h : handle)
| jgrapht_sp_singlesource_get_path_to_vertex (h : handle) (target : Z)
| jgrapht_sp_allpairs_get_path_between_vertices (h : handle) (source target : Z)
| jgrapht_sp_allpairs_get_singlesource_from_vertex (h : handle) (source : Z).

(** The answers of the engine. A path is fetched as its weight, the
    internal IDs of its two ends and the iterator over its edges; a path
    lookup answers [None] when the engine has no path to report. *)
Record Backend := {
  handles_get_graphpath : handle -> result (float * Z * Z * list Z);
  sp_singlesource_get_path_to_vertex : handle -> Z -> result (option handle);
  sp_allpairs_get_path_between_vertices : handle -> Z -> Z -> result (option handle);
  sp_allpairs_get_singlesource_from_vertex : handle -> Z -> result handle
}.

(** ** _PropertyGraphGraphPath *)

(** The object: its handle, the graph it was computed on and the four
    cache slots, [None] until [_cache] fills them. [_graph] stands for the
    graph object as it is while the path is read. *)
Record _PropertyGraphGraphPath := {
  _handle : handle;
  _graph : PropertyGraph;
  _weight : option float;
  _start_vertex : option hashable;
  _end_vertex : option hashable;
  _edges : option (list hashable)
}.

(** [__init__]: the four cache slots start as [None]. *)
Definition new_GraphPath (handle : handle) (graph : PropertyGraph) : _PropertyGraphGraphPath :=
  {| _handle := handle; _graph := graph;
     _weight := None; _start_vertex := None; _end_vertex := None; _edges := None |}.

(** The state a method of a path runs in: the log of native calls and the
    object [self], which the method mutates. *)
Record pstate := PState { log : list native_call; self : _PropertyGraphGraphPath }.

Definition set_weight (v : option float) (p : _PropertyGraphGraphPath) :=
  {| _handle := _handle p; _graph := _graph p; _weight := v;
     _start_vertex := _start_vertex p; _end_vertex := _end_vertex p; _edges := _edges p |}.
Definition set_start_vertex (v : option hashable) (p : _PropertyGraphGraphPath) :=
  {| _handle := _handle p; _graph := _graph p; _weight := _weight p;
     _start_vertex := v; _end_vertex := _end_vertex p; _edges := _edges p |}.
Definition set_end_vertex (v : option hashable) (p : _PropertyGraphGraphPath) :=
  {| _handle := _handle p; _graph := _graph p; _weight := _weight p;
     _start_vertex := _start_vertex p; _end_vertex := v; _edges := _edges p |}.
Definition set_edges (v : option (list hashable)) (p : _PropertyGraphGraphPath) :=
  {| _handle := _handle p; _graph := _graph p; _weight := _weight p;
     _start_vertex := _start_vertex p; _end_vertex := _end_vertex p; _edges := v |}.

Definition assign (f : _PropertyGraphGraphPath -> _PropertyGraphGraphPath) : M pstate unit :=
  modify (fun st => PState (log st) (f (self st))).

(** Python's list iterator: the list and the index of the next element. *)
Record list_iterator := { it_seq : list hashable; it_index : nat }.

Definition list___iter__ (l : list hashable) : list_iterator :=
  {| it_seq := l; it_index := 0 |}.

(** [__next__]: [None] is [StopIteration]. *)
Definition list_iterator___next__ (it : list_iterator) : option (hashable * list_iterator) :=
  match it_seq it !! it_index it with
  | Some x => Some (x, {| it_seq := it_seq it; it_index := S (it_index it) |})
  | None => None
  end.

Fixpoint drain (fuel : nat) (it : list_iterator) : list hashable :=
  match fuel with
  | O => []
  | S fuel' =>
      match list_iterator___next__ it with
      | Some (x, it') => x :: drain fuel' it'
      | None => []
      end
  end.

(** The elements a [for] loop over the iterator sees. *)
Definition iterate (it : list_iterator) : list hashable :=
  drain (S (length (it_seq it))) it.

(** ** _PropertyGraphSingleSourcePaths and _PropertyGraphAllPairsPaths *)

Record _PropertyGraphSingleSourcePaths := {
  ssp_handle : handle;
  ssp_graph : PropertyGraph;
  _source_vertex : hashable
}.

(** The property [source_vertex]. *)
Definition source_vertex (self : _PropertyGraphSingleSourcePaths) : hashable :=
  _source_vertex self.

Record _PropertyGraphAllPairsPaths := {
  app_handle : handle;
  app_graph : PropertyGraph
}.

(** The fields of a path a caller can read, and the values read. *)
Inductive field := Weight | StartVertex | EndVertex | Edges.

Inductive pyvalue :=
| PyNone
| PyFloat (f : float)
| PyVertex (v : hashable)
| PyList (l : list hashable).

Definition pyvalue_of {A} (inj : A -> pyvalue) (o : option A) : pyvalue :=
  match o with
  | Some a => inj a
  | None => PyNone
  end.

Section WithBackend.

Variable backend : Backend.

Definition fetch_graphpath (h : handle) : M pstate (float * Z * Z * list Z) :=
  fun st => (handles_get_graphpath backend h,
             PState (log st ++ [jgrapht_handles_get_graphpath h]) (self st)).

Definition _cache : M pstate unit :=
  let* p := gets self in
  match _edges p with
  | Some _ => ret tt
  | None =>
      let* '(weight, start_vertex, end_vertex, eit) := fetch_graphpath (_handle p) in
      let* _ := assign (set_weight (Some weight)) in
      let* sv := dict_get (_vertex_id_to_hash (_graph p)) start_vertex in
      let* _ := assign (set_start_vertex (Some sv)) in
      let* ev := dict_get (_vertex_id_to_hash (_graph p)) end_vertex in
      let* _ := assign (set_end_vertex (Some ev)) in
      let* es := list_PropertyGraphEdgeIterator eit (_graph p) in
      assign (set_edges (Some es))
  end.

Definition weight : M pstate (option float) :=
  let* _ := _cache in gets (fun st => _weight (self st)).

Definition start_vertex : M pstate (option hashable) :=
  let* _ := _cache in gets (fun st => _start_vertex (self st)).

Definition end_vertex : M pstate (option hashable) :=
  let* _ := _cache in gets (fun st => _end_vertex (self st)).

Definition edges : M pstate (option (list hashable)) :=
  let* _ := _cache in gets (fun st => _edges (self st)).

Definition graph : M pstate PropertyGraph := gets (fun st => _graph (self st)).

(** [self._edges.__iter__()]; on [None] the attribute does not exist. *)
Definition __iter__ : M pstate list_iterator :=
  let* _ := _cache in
  let* es := gets (fun st => _edges (self st)) in
  match es with
  | Some l => ret (list___iter__ l)
  | None => raise AttributeError
  end.

(** Reading one field, and a sequence of reads of one path object. *)
Definition read (f : field) : M pstate pyvalue :=
  match f with
  | Weight => let* v := weight in ret (pyvalue_of PyFloat v)
  | StartVertex => let* v := start_vertex in ret (pyvalue_of PyVertex v)
  | EndVertex => let* v := end_vertex in ret (pyvalue_of PyVertex v)
  | Edges => let* v := edges in ret (pyvalue_of PyList v)
  end.

Fixpoint read_all (fs : list field) : M pstate (list pyvalue) :=
  match fs with
  | [] => ret []
  | f :: fs' =>
      let* v := read f in
      let* vs := read_all fs' in
      ret (v :: vs)
  end.

Definition call_native {A} (c : native_call) (answer : result A) : M (list native_call) A :=
  fun calls => (answer, calls ++ [c]).

Definition SingleSourcePaths_get_path (self : _PropertyGraphSingleSourcePaths)
    (target_vertex : hashable) : M (list native_call) (option _PropertyGraphGraphPath) :=
  let* target_vertex := _vertex_pg_to_g (ssp_graph self) target_vertex in
  let* gp := call_native
               (jgrapht_sp_singlesource_get_path_to_vertex (ssp_handle self) target_vertex)
               (sp_singlesource_get_path_to_vertex backend (ssp_handle self) target_vertex) in
  ret (match gp with
       | Some gp => Some (new_GraphPath gp (ssp_graph self))
       | None => None
       end).

Definition AllPairsPaths_get_path (self : _PropertyGraphAllPairsPaths)
    (source_vertex target_vertex : hashable)
    : M (list native_call) (option _PropertyGraphGraphPath) :=
  let* source_vertex := _vertex_pg_to_g (app_graph self) source_vertex in
  let* target_vertex := _vertex_pg_to_g (app_graph self) target_vertex in
  let* gp := call_native
               (jgrapht_sp_allpairs_get_path_between_vertices
                  (app_handle self) source_vertex target_vertex)
               (sp_allpairs_get_path_between_vertices backend
                  (app_handle self) source_vertex target_vertex) in
  ret (match gp with
       | Some gp => Some (new_GraphPath gp (app_graph self))
       | None => None
       end).

(** The parameter [source_vertex] is rebound to its internal ID, and it
    is this rebound value that the constructor receives. *)
Definition AllPairsPaths_get_paths_from (self : _PropertyGraphAllPairsPaths)
    (source_vertex : hashable) : M (list native_call) _PropertyGraphSingleSourcePaths :=
  let* source_vertex := _vertex_pg_to_g (app_graph self) source_vertex in
  let* singlesource := call_native
               (jgrapht_sp_allpairs_get_singlesource_from_vertex (app_handle self) source_vertex)
               (sp_allpairs_get_singlesource_from_vertex backend
                  (app_handle self) source_vertex) in
  ret {| ssp_handle := singlesource; ssp_graph := app_graph self;
         _source_vertex := HInt source_vertex |}.

End WithBackend.

(** The elements seen by a loop over the iterator a call returned. *)
Definition iterate_result {S} (r : result list_iterator * S) : result (list hashable) :=
  match fst r with
  | Ok it => Ok (iterate it)
  | Raise e => Raise e
  end.

(** *** Facts about the cache *)

(** The decoded object: what [_cache] leaves in the four slots. *)
Definition cached (h : handle) (g : PropertyGraph) (w : float) (a b : hashable)
    (es : list hashable) : _PropertyGraphGraphPath :=
  {| _handle := h; _graph := g; _weight := Some w;
     _start_vertex := Some a; _end_vertex := Some b; _edges := Some es |}.

(** Decoding a sequence of raw edge IDs through the registry. *)
Definition decode_edges (g : PropertyGraph) (eit : list Z) : option (list hashable) :=
  mapM (fun e => _edge_id_to_hash g !! e) eit.

Lemma list_PropertyGraphEdgeIterator_run {S} (eit : list Z) (g : PropertyGraph) (st : S) :
  list_PropertyGraphEdgeIterator eit g st
  = (match decode_edges g eit with Some es => Ok es | None => Raise KeyError end, st).
Proof.
  unfold decode_edges. induction eit as [| e eit IH]; cbn; [reflexivity |].
  unfold bind, dict_get.
  destruct (_edge_id_to_hash g !! e) as [x |]; cbn; [| reflexivity].
  rewrite IH. destruct (mapM _ eit); reflexivity.
Qed.

(** Once the edges are there, [_cache] does nothing. *)
Lemma _cache_populated backend (st : pstate) (l : list hashable) :
  _edges (self st) = Some l -> _cache backend st = (Ok tt, st).
Proof. intros H. unfold _cache, bind, gets. rewrite H. reflexivity. Qed.

(** On a new path whose decoding succeeds, [_cache] fetches once and fills
    the four slots. *)
Lemma _cache_new backend calls h g w sv ev eit a b es :
  handles_get_graphpath backend h = Ok (w, sv, ev, eit) ->
  _vertex_id_to_hash g !! sv = Some a ->
  _vertex_id_to_hash g !! ev = Some b ->
  decode_edges g eit = Some es ->
  _cache backend (PState calls (new_GraphPath h g))
  = (Ok tt, PState (calls ++ [jgrapht_handles_get_graphpath h]) (cached h g w a b es)).
Proof.
  intros Hf Ha Hb Hes. unfold _cache, bind, gets, fetch_graphpath. cbn.
  rewrite Hf. cbn. unfold dict_get. rewrite Ha. cbn. rewrite Hb. cbn.
  rewrite list_PropertyGraphEdgeIterator_run, Hes. reflexivity.
Qed.

(** [_cache] returns normally only with the edges in place. *)
Lemma _cache_ok_edges backend (st st' : pstate) :
  _cache backend st = (Ok tt, st') -> is_Some (_edges (self st')).
Proof.
  unfold _cache, bind, gets, fetch_graphpath.
  destruct (_edges (self st)) as [l |] eqn:He.
  - intros [= <-]. rewrite He. eauto.
  - destruct (handles_get_graphpath backend _) as [[[[w sv] ev] eit] |]; [| discriminate].
    cbn. unfold dict_get.
    destruct (_vertex_id_to_hash _ !! sv); [| discriminate]. cbn.
    destruct (_vertex_id_to_hash _ !! ev); [| discriminate]. cbn.
    rewrite list_PropertyGraphEdgeIterator_run.
    destruct (decode_edges _ eit); [| discriminate].
    intros [= <-]. cbn. eauto.
Qed.

(** The value each field has once the path is decoded. *)
Definition decoded (w : float) (a b : hashable) (es : list hashable) (f : field) : pyvalue :=
  match f with
  | Weight => PyFloat w
  | StartVertex => PyVertex a
  | EndVertex => PyVertex b
  | Edges => PyList es
  end.

Lemma read_cached backend calls h g w a b es (f : field) :
  read backend f (PState calls (cached h g w a b es))
  = (Ok (decoded w a b es f), PState calls (cached h g w a b es)).
Proof.
  destruct f; unfold read, weight, start_vertex, end_vertex, edges, bind;
    rewrite (_cache_populated backend _ es) by reflexivity; reflexivity.
Qed.

Lemma read_all_cached backend calls h g w a b es (fs : list field) :
  read_all backend fs (PState calls (cached h g w a b es))
  = (Ok (map (decoded w a b es) fs), PState calls (cached h g w a b es)).
Proof.
  induction fs as [| f fs IH]; cbn; [reflexivity |].
  unfold bind. rewrite read_cached, IH. reflexivity.
Qed.

Lemma read_new backend calls h g w sv ev eit a b es (f : field) :
  handles_get_graphpath backend h = Ok (w, sv, ev, eit) ->
  _vertex_id_to_hash g !! sv = Some a ->
  _vertex_id_to_hash g !! ev = Some b ->
  decode_edges g eit = Some es ->
  read backend f (PState calls (new_GraphPath h g))
  = (Ok (decoded w a b es f),
     PState (calls ++ [jgrapht_handles_get_graphpath h]) (cached h g w a b es)).
Proof.
  intros Hf Ha Hb Hes.
  destruct f; unfold read, weight, start_vertex, end_vertex, edges, bind;
    rewrite (_cache_new backend calls h g w sv ev eit a b es Hf Ha Hb Hes); reflexivity.
Qed.


(** A graph with the vertices "a", "b", "c" and the edges "ab", "bc",
    registered under the internal IDs 0, 1, 2 and 0, 1. *)
Definition abc_graph : PropertyGraph :=
  {| pg_handle := 1;
     _vertex_hash_to_id := list_to_map [(HStr "a", 0); (HStr "b", 1); (HStr "c", 2)];
     _vertex_id_to_hash := list_to_map [(0, HStr "a"); (1, HStr "b"); (2, HStr "c")];
     _edge_hash_to_id := list_to_map [(HStr "ab", 0); (HStr "bc", 1)];
     _edge_id_to_hash := list_to_map [(0, HStr "ab"); (1, HStr "bc")] |}.

(** An engine that has computed the paths from "a" (handle 10 for the
    single-source paths, 20 for the all-pairs paths); the path to "c" has
    the handle 11, and vertex "b" is answered with no path. *)
Definition abc_backend : Backend :=
  {| handles_get_graphpath h :=
       if h =? 11 then Ok (2%float, 0, 2, [0; 1]) else Raise (NativeError 1);
     sp_singlesource_get_path_to_vertex h t :=
       Ok (if (h =? 10) && (t =? 2) then Some 11 else None);
     sp_allpairs_get_path_between_vertices h s t :=
       Ok (if (h =? 20) && (s =? 0) && (t =? 2) then Some 11 else None);
     sp_allpairs_get_singlesource_from_vertex h s :=
       if h =? 20 then Ok 10 else Raise (NativeError 2) |}.


(** Outside the hypotheses of the theorem the cache is not filled: with a
    start vertex the registry no longer knows, every read fetches again
    and fails again. *)
Example graphpath_stale_registry :
  let g := {| pg_handle := 1;
              _vertex_hash_to_id := ∅; _vertex_id_to_hash := ∅;
              _edge_hash_to_id := ∅; _edge_id_to_hash := ∅ |} in
  let st1 := snd (read abc_backend Weight (PState [] (new_GraphPath 11 g))) in
  read abc_backend Weight (PState [] (new_GraphPath 11 g)) = (Raise KeyError, st1)
  /\ _weight (self st1) = Some 2%float
  /\ _edges (self st1) = None
  /\ read abc_backend Weight st1
     = (Raise KeyError,
        PState [jgrapht_handles_get_graphpath 11; jgrapht_handles_get_graphpath 11] (self st1)).
Proof. vm_compute. repeat split; reflexivity. Qed.


(** *** Facts about iteration *)

Lemma drain_drop (fuel : nat) (l : list hashable) (i : nat) :
  (length l - i < fuel)%nat -> drain fuel {| it_seq := l; it_index := i |} = drop i l.
Proof.
  revert i. induction fuel as [| fuel IH]; intros i Hfuel; [lia |].
  cbn. unfold list_iterator___next__. cbn.
  destruct (l !! i) as [x |] eqn:Hx.
  - rewrite IH.
    + symmetry. now apply drop_S.
    + apply lookup_lt_Some in Hx. lia.
  - apply lookup_ge_None in Hx. now rewrite drop_ge.
Qed.

(** Iterating over the iterator of a list yields the list. *)
Lemma iterate_list___iter__ (l : list hashable) : iterate (list___iter__ l) = l.
Proof. unfold iterate, list___iter__. cbn [it_seq]. rewrite drain_drop; [apply drop_0 | lia]. Qed.

(** C9: iterating over a path runs the same [_cache] step as reading
    [edges] (the same native calls, the same object afterwards), and it
    yields the elements of the list [edges] returns, in the same order;
    when [edges] raises, so does the iteration, with the same exception. *)
Theorem iter_yields_edges (backend : Backend) (st : pstate) :
  snd (__iter__ backend st) = snd (edges backend st)
  /\ match fst (edges backend st) with
     | Ok (Some l) => exists it, fst (__iter__ backend st) = Ok it /\ iterate it = l
     | Ok None => False
     | Raise e => fst (__iter__ backend st) = Raise e
     end.
Proof.
  unfold __iter__, edges, bind, gets.
  destruct (_cache backend st) as [[[] | e] st'] eqn:Hc; cbn.
  - destruct (_cache_ok_edges backend st st' Hc) as [l Hl]. rewrite Hl. cbn.
    split; [reflexivity |]. eexists; split; [reflexivity | apply iterate_list___iter__].
  - split; reflexivity.
Qed.

(** *** Facts about the path lookups *)

Lemma _vertex_pg_to_g_registered {S} (g : PropertyGraph) (v : hashable) (k : Z) (st : S) :
  _vertex_hash_to_id g !! v = Some k -> _vertex_pg_to_g g v st = (Ok k, st).
Proof. intros H. unfold _vertex_pg_to_g. rewrite H. reflexivity. Qed.

Lemma SingleSourcePaths_get_path_run backend self target t calls answer :
  _vertex_hash_to_id (ssp_graph self) !! target = Some t ->
  sp_singlesource_get_path_to_vertex backend (ssp_handle self) t = Ok answer ->
  SingleSourcePaths_get_path backend self target calls
  = (Ok ((fun gp => new_GraphPath gp (ssp_graph self)) <$> answer),
     calls ++ [jgrapht_sp_singlesource_get_path_to_vertex (ssp_handle self) t]).
Proof.
  intros Ht Ha. unfold SingleSourcePaths_get_path, bind.
  rewrite (_vertex_pg_to_g_registered _ _ _ _ Ht). unfold call_native. rewrite Ha.
  destruct answer; reflexivity.
Qed.

Lemma AllPairsPaths_get_path_run backend self source target s t calls answer :
  _vertex_hash_to_id (app_graph self) !! source = Some s ->
  _vertex_hash_to_id (app_graph self) !! target = Some t ->
  sp_allpairs_get_path_between_vertices backend (app_handle self) s t = Ok answer ->
  AllPairsPaths_get_path backend self source target calls
  = (Ok ((fun gp => new_GraphPath gp (app_graph self)) <$> answer),
     calls ++ [jgrapht_sp_allpairs_get_path_between_vertices (app_handle self) s t]).
Proof.
  intros Hs Ht Ha. unfold AllPairsPaths_get_path, bind.
  rewrite (_vertex_pg_to_g_registered _ _ _ _ Hs), (_vertex_pg_to_g_registered _ _ _ _ Ht).
  unfold call_native. rewrite Ha. destruct answer; reflexivity.
Qed.

(** C4: for a target vertex of the graph to which the engine reports no
    path (it answers the lookup with [None]), [get_path] of a
    [SingleSourcePaths] and of an [AllPairsPaths] returns [None] and
    raises nothing; when the engine answers with the handle of a path,
    [get_path] returns a new, not yet decoded, [GraphPath] over that
    handle and the same graph. *)
Theorem get_path_none_or_graphpath (backend : Backend) (calls : list native_call) :
  (forall self target t,
      _vertex_hash_to_id (ssp_graph self) !! target = Some t ->
      sp_singlesource_get_path_to_vertex backend (ssp_handle self) t = Ok None ->
      fst (SingleSourcePaths_get_path backend self target calls) = Ok None)
  /\ (forall self target t gp,
      _vertex_hash_to_id (ssp_graph self) !! target = Some t ->
      sp_singlesource_get_path_to_vertex backend (ssp_handle self) t = Ok (Some gp) ->
      fst (SingleSourcePaths_get_path backend self target calls)
      = Ok (Some (new_GraphPath gp (ssp_graph self))))
  /\ (forall self source target s t,
      _vertex_hash_to_id (app_graph self) !! source = Some s ->
      _vertex_hash_to_id (app_graph self) !! target = Some t ->
      sp_allpairs_get_path_between_vertices backend (app_handle self) s t = Ok None ->
      fst (AllPairsPaths_get_path backend self source target calls) = Ok None)
  /\ (forall self source target s t gp,
      _vertex_hash_to_id (app_graph self) !! source = Some s ->
      _vertex_hash_to_id (app_graph self) !! target = Some t ->
      sp_allpairs_get_path_between_vertices backend (app_handle self) s t = Ok (Some gp) ->
      fst (AllPairsPaths_get_path backend self source target calls)
      = Ok (Some (new_GraphPath gp (app_graph self)))).
Proof.
  repeat apply conj; intros.
  - now erewrite SingleSourcePaths_get_path_run by eassumption.
  - now erewrite SingleSourcePaths_get_path_run by eassumption.
  - now erewrite AllPairsPaths_get_path_run by eassumption.
  - now erewrite AllPairsPaths_get_path_run by eassumption.
Qed.

(** From "a", the engine has no path to "b" and the path 11 to "c". *)
Lemma get_path_none_or_graphpath_witness :
  let ssp := {| ssp_handle := 10; ssp_graph := abc_graph; _source_vertex := HStr "a" |} in
  let app := {| app_handle := 20; app_graph := abc_graph |} in
  fst (SingleSourcePaths_get_path abc_backend ssp (HStr "b") []) = Ok None
  /\ fst (SingleSourcePaths_get_path abc_backend ssp (HStr "c") [])
     = Ok (Some (new_GraphPath 11 abc_graph))
  /\ fst (AllPairsPaths_get_path abc_backend app (HStr "a") (HStr "b") []) = Ok None
  /\ fst (AllPairsPaths_get_path abc_backend app (HStr "a") (HStr "c") [])
     = Ok (Some (new_GraphPath 11 abc_graph)).
Proof.
  cbv zeta.
  destruct (get_path_none_or_graphpath abc_backend []) as (H1 & H2 & H3 & H4).
  pose (ssp := {| ssp_handle := 10; ssp_graph := abc_graph; _source_vertex := HStr "a" |}).
  pose (app := {| app_handle := 20; app_graph := abc_graph |}).
  repeat apply conj.
  - apply (H1 ssp (HStr "b") 1); vm_compute; reflexivity.
  - apply (H2 ssp (HStr "c") 2 11); vm_compute; reflexivity.
  - apply (H3 app (HStr "a") (HStr "b") 0 1); vm_compute; reflexivity.
  - apply (H4 app (HStr "a") (HStr "c") 0 2 11); vm_compute; reflexivity.
Defined.

(** *** The source vertex of [get_paths_from] *)

(** What [get_paths_from] stores as the source vertex is the internal ID
    of the vertex. *)
Lemma AllPairsPaths_get_paths_from_run backend self source s calls singlesource :
  _vertex_hash_to_id (app_graph self) !! source = Some s ->
  sp_allpairs_get_singlesource_from_vertex backend (app_handle self) s = Ok singlesource ->
  AllPairsPaths_get_paths_from backend self source calls
  = (Ok {| ssp_handle := singlesource; ssp_graph := app_graph self;
           _source_vertex := HInt s |},
     calls ++ [jgrapht_sp_allpairs_get_singlesource_from_vertex (app_handle self) s]).
Proof.
  intros Hs Ha. unfold AllPairsPaths_get_paths_from, bind.
  rewrite (_vertex_pg_to_g_registered _ _ _ _ Hs). unfold call_native. rewrite Ha.
  reflexivity.
Qed.

(** C1 fails on the code: on the graph whose vertex "a" has the internal
    ID 0, [get_paths_from("a")] returns single-source paths whose
    [source_vertex] is the integer 0, the internal ID, and not "a". *)
Theorem get_paths_from_source_vertex_internal :
  let self := {| app_handle := 20; app_graph := abc_graph |} in
  exists ssp,
    fst (AllPairsPaths_get_paths_from abc_backend self (HStr "a") []) = Ok ssp
    /\ source_vertex ssp = HInt 0
    /\ source_vertex ssp <> HStr "a".
Proof.
  cbv zeta.
  rewrite (AllPairsPaths_get_paths_from_run abc_backend _ (HStr "a") 0 [] 10)
    by (vm_compute; reflexivity).
  eexists; split; [reflexivity |]. cbn. split; [reflexivity | discriminate].
Qed.

Example iter_sample :
  iterate_result (__iter__ abc_backend (PState [] (new_GraphPath 11 abc_graph)))
  = Ok [HStr "ab"; HStr "bc"].
Proof. vm_compute. reflexivity. Qed.

End PgPaths.

(** * Further facts about generators.py *)
Module GeneratorsFacts.
Import Generators.

(** A computation whose outcome and native calls do not depend on the
    reading of the clock. *)
Definition clock_independent (c : M world unit) : Prop :=
  forall w1 w2 : world,
    calls w1 = calls w2 ->
    fst (c w1) = fst (c w2) /\ calls (snd (c w1)) = calls (snd (c w2)).

(** A computation that, whatever it returns, leaves the clock and the
    earlier log alone and adds exactly one native call. *)
Definition calls_exactly_once (c : M world unit) : Prop :=
  forall w : world,
    exists call, snd (c w) = World (clock w) (calls w ++ [call]).

(** The same for a seeded generator called with [seed], with the one
    exception there is: no seed is given and [int(time.time())] raises;
    then the generator raises that exception and the world is as it
    was. *)
Definition calls_once_unless_clock_fails (seed : option Z) (c : M world unit) : Prop :=
  forall w : world,
    match seed, py_int_of_float (clock w) with
    | None, Raise e => c w = (Raise e, w)
    | _, _ => exists call, snd (c w) = World (clock w) (calls w ++ [call])
    end.

(** The shape of every seeded generator. *)
Definition seeded (backend : native_call -> result unit) (call : Z -> native_call)
    (seed : option Z) : M world unit :=
  let* seed := seed_or_time seed in call_backend backend (call seed).

Lemma seeded_clock_independent backend call (s : Z) :
  clock_independent (seeded backend call (Some s)).
Proof. intros w1 w2 Hc. cbn. rewrite Hc. split; reflexivity. Qed.

Lemma seeded_calls_once backend call (seed : option Z) :
  calls_once_unless_clock_fails seed (seeded backend call seed).
Proof.
  intros w. destruct seed as [s |].
  - destruct (py_int_of_float (clock w)); exists (call s); reflexivity.
  - unfold seeded, bind. rewrite seed_or_time_none.
    destruct (py_int_of_float (clock w)) as [t | e]; [exists (call t) |]; reflexivity.
Qed.

Lemma call_backend_calls_once backend (c : native_call) :
  calls_exactly_once (call_backend backend c).
Proof. intros w. exists c. reflexivity. Qed.

Lemma seeded_none_distinct backend call (w1 w2 : world) (t1 t2 : Z) :
  (forall a b, call a = call b -> a = b) ->
  calls w1 = calls w2 ->
  py_int_of_float (clock w1) = Ok t1 ->
  py_int_of_float (clock w2) = Ok t2 ->
  t1 <> t2 ->
  calls (snd (seeded backend call None w1)) <> calls (snd (seeded backend call None w2)).
Proof.
  intros Hinj Hc H1 H2 Hne. unfold seeded, bind.
  rewrite !seed_or_time_none, H1, H2. cbn. rewrite Hc.
  intros Heq. apply app_inv_head in Heq. injection Heq as Heq. now apply Hinj in Heq.
Qed.

(** X1: with a seed supplied, what every seeded generator asks of the engine,
    and what it returns, is the same whatever the clock reads: a run can
    be repeated. *)
Theorem supplied_seed_is_reproducible
    (backend : native_call -> result unit) (graph : Graph) (s : Z) :
  (forall m0 m n, clock_independent (barabasi_albert_graph backend graph m0 m n (Some s)))
  /\ (forall t n, clock_independent (barabasi_albert_forest backend graph t n (Some s)))
  /\ (forall n m l me, clock_independent (gnm_random_graph backend graph n m l me (Some s)))
  /\ (forall n p l, clock_independent (gnp_random_graph backend graph n p l (Some s)))
  /\ (forall n, clock_independent (scalefree_graph backend graph n (Some s)))
  /\ (forall n k p a, clock_independent (watts_strogatz_graph backend graph n k p a (Some s)))
  /\ (forall n p q r,
         clock_independent (kleinberg_smallworld_graph backend graph n p q r (Some s))).
Proof.
  repeat apply conj; intros;
    match goal with
    | |- clock_independent (?gen _) => apply (seeded_clock_independent backend)
    end.
Qed.

(** A computation that hands different things to the engine at clock
    readings with different integer parts. *)
Definition follows_clock (c : M world unit) : Prop :=
  forall (w1 w2 : world) (t1 t2 : Z),
    calls w1 = calls w2 ->
    py_int_of_float (clock w1) = Ok t1 ->
    py_int_of_float (clock w2) = Ok t2 ->
    t1 <> t2 ->
    calls (snd (c w1)) <> calls (snd (c w2)).

Lemma seeded_follows_clock backend call :
  (forall a b, call a = call b -> a = b) -> follows_clock (seeded backend call None).
Proof. intros Hinj w1 w2 t1 t2. now apply seeded_none_distinct. Qed.

(** X2: without a seed a run is tied to the clock: two runs of a seeded
    generator at clock readings with different integer parts hand
    different seeds to the engine. *)
Theorem unseeded_runs_follow_clock
    (backend : native_call -> result unit) (graph : Graph) :
  (forall m0 m n, follows_clock (barabasi_albert_graph backend graph m0 m n None))
  /\ (forall t n, follows_clock (barabasi_albert_forest backend graph t n None))
  /\ (forall n m l me, follows_clock (gnm_random_graph backend graph n m l me None))
  /\ (forall n p l, follows_clock (gnp_random_graph backend graph n p l None))
  /\ (forall n, follows_clock (scalefree_graph backend graph n None))
  /\ (forall n k p a, follows_clock (watts_strogatz_graph backend graph n k p a None))
  /\ (forall n p q r, follows_clock (kleinberg_smallworld_graph backend graph n p q r None)).
Proof.
  repeat apply conj; intros;
    match goal with
    | |- follows_clock (?gen _) => apply (seeded_follows_clock backend)
    end;
    intros x y [= ]; assumption.
Qed.

Lemma unseeded_runs_follow_clock_witness :
  calls (snd (gnp_random_graph strict_backend {| graph_handle := 7 |} 10 0.5%float false None
                (World 1730628000.75%float [])))
  <> calls (snd (gnp_random_graph strict_backend {| graph_handle := 7 |} 10 0.5%float false None
                   (World 1730628001.25%float []))).
Proof.
  destruct (unseeded_runs_follow_clock strict_backend {| graph_handle := 7 |})
    as (_ & _ & _ & H & _).
  apply (H 10 0.5%float false (World 1730628000.75%float []) (World 1730628001.25%float [])
           1730628000 1730628001);
    [reflexivity | vm_compute; reflexivity | vm_compute; reflexivity | lia].
Defined.

(** X3: no generator touches the clock or the earlier log, and every call
    of a generator adds exactly one native call to the log, whatever the
    parameters are and whatever the engine answers. The one exception is
    a seeded generator called without a seed while [int(time.time())]
    raises: it raises that exception and calls nothing. *)
Theorem generators_call_once
    (backend : native_call -> result unit) (graph : Graph) (seed : option Z) :
  (forall n, calls_exactly_once (complete_graph backend graph n))
  /\ (forall a b, calls_exactly_once (complete_bipartite_graph backend graph a b))
  /\ (forall n, calls_exactly_once (empty_graph backend graph n))
  /\ (forall n, calls_exactly_once (ring_graph backend graph n))
  /\ (forall m0 m n,
      calls_once_unless_clock_fails seed (barabasi_albert_graph backend graph m0 m n seed))
  /\ (forall t n,
      calls_once_unless_clock_fails seed (barabasi_albert_forest backend graph t n seed))
  /\ (forall n m l me,
      calls_once_unless_clock_fails seed (gnm_random_graph backend graph n m l me seed))
  /\ (forall n p l,
      calls_once_unless_clock_fails seed (gnp_random_graph backend graph n p l seed))
  /\ (forall n, calls_once_unless_clock_fails seed (scalefree_graph backend graph n seed))
  /\ (forall n k p a,
      calls_once_unless_clock_fails seed (watts_strogatz_graph backend graph n k p a seed))
  /\ (forall n p q r,
      calls_once_unless_clock_fails seed
        (kleinberg_smallworld_graph backend graph n p q r seed)).
Proof.
  repeat apply conj; intros;
    first [ apply call_backend_calls_once
          | apply (seeded_calls_once backend) ].
Qed.

End GeneratorsFacts.

(** * Further facts about io/edgelist.py *)
Module EdgelistFacts.
Import Edgelist.

(** ** Which strings [bytearray(s, encoding="utf-8")] accepts *)

(** A code point that can be encoded: in the Unicode range and no
    surrogate. *)
Definition encodable (c : Z) : Prop :=
  0 <= c <= 0x10FFFF /\ ~ (0xD800 <= c <= 0xDFFF).

Lemma utf8_encode_char_encodable (c : Z) :
  encodable c -> exists bs, utf8_encode_char c = Ok bs /\ (1 <= length bs <= 4)%nat.
Proof.
  intros [[H0 Hmax] Hsur]. unfold utf8_encode_char.
  destruct (Z.ltb_spec c 0); [lia |]. destruct (Z.ltb_spec 0x10FFFF c); [lia |]. cbn [orb].
  destruct (Z.ltb_spec c 0x80); [eexists; split; [reflexivity | cbn; lia] |].
  destruct (Z.ltb_spec c 0x800); [eexists; split; [reflexivity | cbn; lia] |].
  destruct (Z.leb_spec 0xD800 c), (Z.leb_spec c 0xDFFF); cbn [andb]; try lia;
    destruct (Z.ltb_spec c 0x10000); eexists; (split; [reflexivity | cbn; lia]).
Qed.

Lemma utf8_encode_char_not_encodable (c : Z) :
  ~ encodable c -> utf8_encode_char c = Raise UnicodeEncodeError.
Proof.
  intros Hn. unfold utf8_encode_char, encodable in *.
  destruct (Z.ltb_spec c 0); [reflexivity |].
  destruct (Z.ltb_spec 0x10FFFF c); [reflexivity |]. cbn [orb].
  destruct (Z.ltb_spec c 0x80); [lia |].
  destruct (Z.ltb_spec c 0x800); [lia |].
  destruct (Z.leb_spec 0xD800 c), (Z.leb_spec c 0xDFFF); cbn [andb]; try reflexivity; lia.
Qed.

Lemma encodable_dec (c : Z) : {encodable c} + {~ encodable c}.
Proof.
  unfold encodable.
  destruct (Z_le_dec 0 c), (Z_le_dec c 0x10FFFF), (Z_le_dec 0xD800 c), (Z_le_dec c 0xDFFF);
    first [left; lia | right; lia].
Qed.

(** The encoding succeeds exactly on the strings of encodable code points,
    and the only exception it raises is [UnicodeEncodeError]. *)
Lemma utf8_encode_total (s : pystr) :
  (Forall encodable s /\ exists b, utf8_encode s = Ok b)
  \/ (~ Forall encodable s /\ utf8_encode s = Raise UnicodeEncodeError).
Proof.
  induction s as [| c s IH]; cbn.
  - left. split; [constructor | eauto].
  - destruct (encodable_dec c) as [Hc | Hc].
    + destruct (utf8_encode_char_encodable c Hc) as (bs & -> & _).
      destruct IH as [[Hs [b ->]] | [Hs ->]].
      * left. split; [now constructor | eauto].
      * right. split; [| reflexivity]. intros H. inversion H; subst. contradiction.
    + rewrite (utf8_encode_char_not_encodable c Hc).
      right. split; [| reflexivity]. intros H. inversion H; subst. contradiction.
Qed.

(** X4: a lone surrogate (or a value outside the Unicode range) in the file
    name or input string makes [_import_edgelist] raise
    [UnicodeEncodeError] once the format is known to be supported; the
    native function is not called. *)
Theorem import_unencodable_string
    (backend : gmap string native_fn) (name : string) (with_attrs : bool)
    (s : pystr) (args : list pyval) (w : world) (f : native_fn) :
  backend !! method_name name with_attrs = Some f ->
  ~ Forall encodable s ->
  _import_edgelist backend name with_attrs s args w
  = (Raise UnicodeEncodeError, w ++ [EvEncode s]).
Proof.
  intros Hb Hs. destruct (utf8_encode_total s) as [[Hok _] | [_ He]]; [contradiction |].
  now apply _import_edgelist_unencodable with f.
Qed.

Lemma import_unencodable_string_witness :
  _import_edgelist json_only_backend "file_json" false [0x61; 0xD800] [PyFPtr 1] []
  = (Raise UnicodeEncodeError, [EvEncode [0x61; 0xD800]]).
Proof.
  apply (import_unencodable_string json_only_backend "file_json" false [0x61; 0xD800]
           [PyFPtr 1] [] (fun _ => Ok 41)).
  - vm_compute. reflexivity.
  - intros H. inversion H as [| ? ? _ H2]; subst. inversion H2 as [| ? ? H3 _]; subst.
    destruct H3 as [_ H3]. apply H3. lia.
Defined.

(** ** The size of the buffer *)

Lemma utf8_encode_char_length (c : Z) (bs : list Z) :
  utf8_encode_char c = Ok bs -> (1 <= length bs <= 4)%nat.
Proof.
  intros H. destruct (encodable_dec c) as [Hc | Hc].
  - destruct (utf8_encode_char_encodable c Hc) as (bs' & Hbs & Hlen). congruence.
  - rewrite (utf8_encode_char_not_encodable c Hc) in H. discriminate.
Qed.

(** X5: the buffer has at least one byte and at most four bytes for each
    code point of the string. *)
Theorem utf8_encode_length (s : pystr) (b : list Z) :
  utf8_encode s = Ok b -> (length s <= length b <= 4 * length s)%nat.
Proof.
  revert b. induction s as [| c s IH]; intros b; cbn.
  - intros [= <-]. cbn. lia.
  - destruct (utf8_encode_char c) as [bs |] eqn:Hc; [| discriminate].
    destruct (utf8_encode s) as [rest |]; [| discriminate].
    intros [= <-]. rewrite length_app.
    pose proof (utf8_encode_char_length c bs Hc). specialize (IH rest eq_refl). lia.
Qed.

Definition sample_string : pystr := [0x68; 0xE9; 0x20AC; 0x1F600].
Definition sample_buffer : list Z := [0x68; 0xC3; 0xA9; 0xE2; 0x82; 0xAC; 0xF0; 0x9F; 0x98; 0x80].

Lemma utf8_encode_length_witness :
  (length sample_string <= length sample_buffer <= 4 * length sample_string)%nat.
Proof. apply (utf8_encode_length sample_string sample_buffer). reflexivity. Defined.

(** ** The encoding loses nothing *)

(** A tag in the high bits and a value that fits below it: the bitwise
    or is the sum. *)
Lemma lor_tag (m k x : Z) :
  0 <= k -> 0 <= x < 2 ^ k -> Z.lor (m * 2 ^ k) x = m * 2 ^ k + x.
Proof.
  intros Hk Hx.
  assert (Hland : Z.land (m * 2 ^ k) x = 0).
  { apply Z.bits_inj'. intros n Hn. rewrite Z.land_spec, Z.bits_0.
    destruct (Z.lt_ge_cases n k).
    - now rewrite Z.mul_pow2_bits_low by lia.
    - rewrite <- (Z.mod_small x (2 ^ k)) by lia.
      rewrite Z.mod_pow2_bits_high by lia. apply andb_false_r. }
  rewrite <- Z.lxor_lor by assumption. symmetry. now apply Z.add_nocarry_lxor.
Qed.

Lemma continuation_byte (c : Z) : Z.lor 0x80 (Z.land c 0x3F) = 0x80 + c mod 64.
Proof.
  change 0x3F with (Z.ones 6). rewrite Z.land_ones by lia.
  change 0x80 with (2 * 2 ^ 6). apply lor_tag; [lia |].
  change (2 ^ 6) with 64. apply Z.mod_pos_bound. lia.
Qed.

Lemma leading_byte (tag m k c : Z) :
  tag = m * 2 ^ k -> 0 <= k -> 0 <= c -> forall j, 0 <= j -> c < 2 ^ (k + j) ->
  Z.lor tag (Z.shiftr c j) = tag + c / 2 ^ j.
Proof.
  intros -> Hk Hc j Hj Hlt. rewrite Z.shiftr_div_pow2 by assumption.
  apply lor_tag; [assumption |]. split.
  - apply Z.div_pos; lia.
  - apply Z.div_lt_upper_bound; [lia |]. rewrite <- Z.pow_add_r by lia.
    now rewrite Z.add_comm.
Qed.

(** A decoder of one code point from the front of a buffer. It is not
    part of the module; it is the inverse that shows the encoding to be
    one to one. *)
Definition utf8_decode_char (bs : list Z) : option (Z * list Z) :=
  match bs with
  | [] => None
  | b0 :: bs1 =>
      if b0 <? 0x80 then Some (b0, bs1)
      else if b0 <? 0xE0 then
        match bs1 with
        | b1 :: r => Some ((b0 - 0xC0) * 64 + (b1 - 0x80), r)
        | _ => None
        end
      else if b0 <? 0xF0 then
        match bs1 with
        | b1 :: b2 :: r => Some ((b0 - 0xE0) * 4096 + (b1 - 0x80) * 64 + (b2 - 0x80), r)
        | _ => None
        end
      else
        match bs1 with
        | b1 :: b2 :: b3 :: r =>
            Some ((b0 - 0xF0) * 262144 + (b1 - 0x80) * 4096 + (b2 - 0x80) * 64 + (b3 - 0x80), r)
        | _ => None
        end
  end.

Fixpoint utf8_decode (fuel : nat) (bs : list Z) : option pystr :=
  match bs with
  | [] => Some []
  | _ :: _ =>
      match fuel with
      | O => None
      | S fuel' =>
          match utf8_decode_char bs with
          | Some (c, rest) => cons c <$> utf8_decode fuel' rest
          | None => None
          end
      end
  end.

Lemma utf8_decode_encode_char (c : Z) (bs rest : list Z) :
  utf8_encode_char c = Ok bs -> utf8_decode_char (bs ++ rest) = Some (c, rest).
Proof.
  unfold utf8_encode_char.
  destruct (Z.ltb_spec c 0); [discriminate |].
  destruct (Z.ltb_spec 0x10FFFF c); [discriminate |]. cbn [orb].
  destruct (Z.ltb_spec c 0x80).
  { intros [= <-]. cbn. destruct (Z.ltb_spec c 0x80); [reflexivity | lia]. }
  destruct (Z.ltb_spec c 0x800).
  { intros [= <-]. cbn [app utf8_decode_char].
    rewrite continuation_byte, (leading_byte 0xC0 3 6 c) by (reflexivity || lia).
    change (2 ^ 6) with 64.
    destruct (Z.ltb_spec (0xC0 + c / 64) 0x80); [Z.div_mod_to_equations; lia |].
    destruct (Z.ltb_spec (0xC0 + c / 64) 0xE0); [| Z.div_mod_to_equations; lia].
    do 2 f_equal. Z.div_mod_to_equations; lia. }
  destruct ((0xD800 <=? c) && (c <=? 0xDFFF)); [discriminate |].
  destruct (Z.ltb_spec c 0x10000).
  { intros [= <-]. cbn [app utf8_decode_char].
    rewrite !continuation_byte, (leading_byte 0xE0 14 4 c) by (reflexivity || lia).
    rewrite Z.shiftr_div_pow2 by lia.
    change (2 ^ 12) with 4096. change (2 ^ 6) with 64.
    destruct (Z.ltb_spec (0xE0 + c / 4096) 0x80); [Z.div_mod_to_equations; lia |].
    destruct (Z.ltb_spec (0xE0 + c / 4096) 0xE0); [Z.div_mod_to_equations; lia |].
    destruct (Z.ltb_spec (0xE0 + c / 4096) 0xF0); [| Z.div_mod_to_equations; lia].
    do 2 f_equal. Z.div_mod_to_equations; lia. }
  intros [= <-]. cbn [app utf8_decode_char].
  rewrite !continuation_byte, (leading_byte 0xF0 30 3 c) by (reflexivity || lia).
  rewrite !Z.shiftr_div_pow2 by lia.
  change (2 ^ 18) with 262144. change (2 ^ 12) with 4096. change (2 ^ 6) with 64.
  destruct (Z.ltb_spec (0xF0 + c / 262144) 0x80); [Z.div_mod_to_equations; lia |].
  destruct (Z.ltb_spec (0xF0 + c / 262144) 0xE0); [Z.div_mod_to_equations; lia |].
  destruct (Z.ltb_spec (0xF0 + c / 262144) 0xF0); [Z.div_mod_to_equations; lia |].
  do 2 f_equal. Z.div_mod_to_equations; lia.
Qed.

(** Decoding the buffer of a string gives the string back. *)
Lemma utf8_decode_encode (s : pystr) (b : list Z) (fuel : nat) :
  utf8_encode s = Ok b -> (length s <= fuel)%nat -> utf8_decode fuel b = Some s.
Proof.
  revert b fuel. induction s as [| c s IH]; intros b fuel; cbn.
  - intros [= <-] _. destruct fuel; reflexivity.
  - destruct (utf8_encode_char c) as [bs |] eqn:Hc; [| discriminate].
    destruct (utf8_encode s) as [rest |] eqn:Hs; [| discriminate].
    intros [= <-] Hfuel. destruct fuel as [| fuel]; [lia |].
    pose proof (utf8_encode_char_length c bs Hc) as Hlen.
    destruct bs as [| b0 bs]; [cbn in Hlen; lia |].
    change ((b0 :: bs) ++ rest) with (b0 :: (bs ++ rest)).
    cbn [utf8_decode]. change (b0 :: (bs ++ rest)) with ((b0 :: bs) ++ rest).
    rewrite (utf8_decode_encode_char c (b0 :: bs) rest Hc).
    rewrite (IH rest fuel eq_refl) by lia. reflexivity.
Qed.

(** X6: two strings with the same buffer are the same string: no two
    different file names or inputs reach the native side as the same
    bytes. *)
Theorem utf8_encode_injective (s1 s2 : pystr) (b : list Z) :
  utf8_encode s1 = Ok b -> utf8_encode s2 = Ok b -> s1 = s2.
Proof.
  intros H1 H2.
  pose proof (utf8_decode_encode s1 b (length s1 + length s2) H1 ltac:(lia)) as D1.
  pose proof (utf8_decode_encode s2 b (length s1 + length s2) H2 ltac:(lia)) as D2.
  congruence.
Qed.

Lemma utf8_encode_injective_witness : sample_string = sample_string.
Proof. apply (utf8_encode_injective sample_string sample_string sample_buffer); reflexivity. Defined.

(** ** The outcome of an import *)

(** X7: where a result of [_import_edgelist] comes from. An edge list is
    returned only when the backend has the function, the string has been
    encoded, and the function returned the handle the edge list wraps. An
    exception is [NotImplementedError] for an unknown format, or the
    error of the encoding, or the exception of the native function,
    unchanged. *)
Theorem import_outcome
    (backend : gmap string native_fn) (name : string) (with_attrs : bool)
    (s : pystr) (args : list pyval) (w : world) :
  match fst (_import_edgelist backend name with_attrs s args w) with
  | Ok res =>
      exists (f : native_fn) b,
        backend !! method_name name with_attrs = Some f
        /\ utf8_encode s = Ok b
        /\ f (PyByteArray b :: args) = Ok (etl_handle res)
  | Raise e =>
      (backend !! method_name name with_attrs = None
       /\ e = NotImplementedError ("Algorithm " +:+ name +:+ " not supported."))
      \/ (is_Some (backend !! method_name name with_attrs)
          /\ utf8_encode s = Raise e /\ e = UnicodeEncodeError)
      \/ (exists (f : native_fn) b,
            backend !! method_name name with_attrs = Some f
            /\ utf8_encode s = Ok b
            /\ f (PyByteArray b :: args) = Raise e)
  end.
Proof.
  destruct (backend !! method_name name with_attrs) as [f |] eqn:Hb.
  - destruct (utf8_encode_total s) as [[_ [b He]] | [_ He]].
    + rewrite (_import_edgelist_native _ _ _ _ _ _ f b Hb He). cbn [fst].
      destruct (f (PyByteArray b :: args)) as [res | e] eqn:Hf.
      * exists f, b. auto.
      * right; right. exists f, b. auto.
    + rewrite (_import_edgelist_unencodable _ _ _ _ _ _ f _ Hb He). cbn [fst].
      right; left. eauto.
  - rewrite (_import_edgelist_unsupported _ _ _ _ _ _ Hb). cbn [fst]. left. auto.
Qed.

(** X8: an ASCII file name or input reaches the native function byte for
    byte: the buffer holds the code points of the string themselves. *)
Theorem import_ascii_unchanged
    (backend : gmap string native_fn) (name : string) (with_attrs : bool)
    (s : pystr) (args : list pyval) (w : world) (f : native_fn) :
  backend !! method_name name with_attrs = Some f ->
  Forall (fun c => 0 <= c < 0x80) s ->
  snd (_import_edgelist backend name with_attrs s args w)
  = w ++ [EvEncode s; EvNative (method_name name with_attrs) (PyByteArray s :: args)].
Proof.
  intros Hb Hs.
  now rewrite (_import_edgelist_native _ _ _ _ _ _ f s Hb (utf8_encode_ascii s Hs)).
Qed.

Lemma import_ascii_unchanged_witness :
  snd (_import_edgelist json_only_backend "file_json" false [0x61; 0x2E; 0x6A] [PyFPtr 1] [])
  = [EvEncode [0x61; 0x2E; 0x6A];
     EvNative "jgrapht_import_edgelist_noattrs_file_json"
       [PyByteArray [0x61; 0x2E; 0x6A]; PyFPtr 1]].
Proof.
  apply (import_ascii_unchanged json_only_backend "file_json" false [0x61; 0x2E; 0x6A]
           [PyFPtr 1] [] (fun _ => Ok 41)).
  - vm_compute. reflexivity.
  - repeat constructor; lia.
Defined.

(** ** The public functions and the attribute callbacks *)

(** X9: as soon as one attribute callback is given, a public import
    function needs the [attrs] function of the backend for its format:
    when the backend lacks it, the call raises [NotImplementedError]
    naming the format, without encoding the input and without a native
    call, even when the [noattrs] function is there. *)
Theorem attribute_callbacks_need_attrs_function
    (backend : gmap string native_fn) (callback : Type)
    (wrap_id : callback -> Z * callback)
    (wrap_attr : option callback -> Z * option callback)
    (s : pystr) (import_id_cb : callback) (validate_schema : bool)
    (vertex_attribute_cb edge_attribute_cb : option callback) (w : world) :
  is_Some vertex_attribute_cb \/ is_Some edge_attribute_cb ->
  (backend !! "jgrapht_import_edgelist_attrs_file_json" = None ->
   read_edgelist_json backend callback wrap_id wrap_attr s import_id_cb
     vertex_attribute_cb edge_attribute_cb w
   = (Raise (NotImplementedError "Algorithm file_json not supported."), w))
  /\ (backend !! "jgrapht_import_edgelist_attrs_string_json" = None ->
   parse_edgelist_json backend callback wrap_id wrap_attr s import_id_cb
     vertex_attribute_cb edge_attribute_cb w
   = (Raise (NotImplementedError "Algorithm string_json not supported."), w))
  /\ (backend !! "jgrapht_import_edgelist_attrs_file_gexf" = None ->
   read_edgelist_gexf backend callback wrap_id wrap_attr s import_id_cb validate_schema
     vertex_attribute_cb edge_attribute_cb w
   = (Raise (NotImplementedError "Algorithm file_gexf not supported."), w))
  /\ (backend !! "jgrapht_import_edgelist_attrs_string_gexf" = None ->
   parse_edgelist_gexf backend callback wrap_id wrap_attr s import_id_cb validate_schema
     vertex_attribute_cb edge_attribute_cb w
   = (Raise (NotImplementedError "Algorithm string_gexf not supported."), w)).
Proof.
  intros Hcb.
  unfold read_edgelist_json, parse_edgelist_json, read_edgelist_gexf, parse_edgelist_gexf.
  destruct (wrap_id import_id_cb) as [id_ptr ?].
  destruct (wrap_attr vertex_attribute_cb) as [v_ptr ?] eqn:Hv.
  destruct (wrap_attr edge_attribute_cb) as [e_ptr ?] eqn:He.
  assert (Hsome : match vertex_attribute_cb, edge_attribute_cb with
                  | None, None => False
                  | _, _ => True
                  end).
  { destruct Hcb as [[? ->] | [? ->]]; [exact I |]. now destruct vertex_attribute_cb. }
  repeat apply conj; intros Hb;
    destruct vertex_attribute_cb, edge_attribute_cb; try contradiction;
    rewrite ?Hv, ?He; now apply _import_edgelist_unsupported.
Qed.

Lemma attribute_callbacks_need_attrs_function_witness :
  read_edgelist_json json_only_backend unit (fun cb => (1, cb)) (fun cb => (2, cb))
    [0x61] tt (Some tt) None []
  = (Raise (NotImplementedError "Algorithm file_json not supported."), []).
Proof.
  destruct (attribute_callbacks_need_attrs_function json_only_backend unit
              (fun cb => (1, cb)) (fun cb => (2, cb)) [0x61] tt true (Some tt) None [])
    as (H & _); [left; eauto |].
  apply H. vm_compute. reflexivity.
Defined.

End EdgelistFacts.

(** * Further facts about _internals/_pg_paths.py *)
Module PgPathsFacts.
Import PgPaths.

(** ** Lookups are lazy *)

(** X11: a lookup is lazy. For registered vertices each of [get_path] (of
    both classes) and [get_paths_from] issues exactly one native call,
    the lookup itself with the internal IDs of the vertices, whatever the
    engine answers; in particular no path is fetched, and a path that is
    returned has its four slots empty. *)
Theorem lookups_are_lazy (backend : Backend) (calls : list native_call) :
  (forall self target t,
      _vertex_hash_to_id (ssp_graph self) !! target = Some t ->
      snd (SingleSourcePaths_get_path backend self target calls)
      = calls ++ [jgrapht_sp_singlesource_get_path_to_vertex (ssp_handle self) t]
      /\ forall p, fst (SingleSourcePaths_get_path backend self target calls) = Ok (Some p) ->
           _weight p = None /\ _start_vertex p = None /\ _end_vertex p = None
           /\ _edges p = None /\ _graph p = ssp_graph self)
  /\ (forall self source target s t,
      _vertex_hash_to_id (app_graph self) !! source = Some s ->
      _vertex_hash_to_id (app_graph self) !! target = Some t ->
      snd (AllPairsPaths_get_path backend self source target calls)
      = calls ++ [jgrapht_sp_allpairs_get_path_between_vertices (app_handle self) s t]
      /\ forall p, fst (AllPairsPaths_get_path backend self source target calls) = Ok (Some p) ->
           _weight p = None /\ _start_vertex p = None /\ _end_vertex p = None
           /\ _edges p = None /\ _graph p = app_graph self)
  /\ (forall self source s,
      _vertex_hash_to_id (app_graph self) !! source = Some s ->
      snd (AllPairsPaths_get_paths_from backend self source calls)
      = calls ++ [jgrapht_sp_allpairs_get_singlesource_from_vertex (app_handle self) s]).
Proof.
  repeat apply conj.
  - intros self target t Ht.
    unfold SingleSourcePaths_get_path, bind.
    rewrite (_vertex_pg_to_g_registered _ _ _ _ Ht). unfold call_native.
    destruct (sp_singlesource_get_path_to_vertex backend _ t) as [[gp |] | e]; cbn;
      (split; [reflexivity |]); intros p [= <-] || intros p [=]; cbn; auto.
  - intros self source target s t Hs Ht.
    unfold AllPairsPaths_get_path, bind.
    rewrite (_vertex_pg_to_g_registered _ _ _ _ Hs), (_vertex_pg_to_g_registered _ _ _ _ Ht).
    unfold call_native.
    destruct (sp_allpairs_get_path_between_vertices backend _ s t) as [[gp |] | e]; cbn;
      (split; [reflexivity |]); intros p [= <-] || intros p [=]; cbn; auto.
  - intros self source s Hs.
    unfold AllPairsPaths_get_paths_from, bind.
    rewrite (_vertex_pg_to_g_registered _ _ _ _ Hs). unfold call_native.
    destruct (sp_allpairs_get_singlesource_from_vertex backend _ s); reflexivity.
Qed.

Lemma lookups_are_lazy_witness :
  snd (SingleSourcePaths_get_path abc_backend
         {| ssp_handle := 10; ssp_graph := abc_graph; _source_vertex := HStr "a" |}
         (HStr "c") [])
  = [jgrapht_sp_singlesource_get_path_to_vertex 10 2].
Proof.
  destruct (lookups_are_lazy abc_backend []) as (H & _ & _).
  apply (H {| ssp_handle := 10; ssp_graph := abc_graph; _source_vertex := HStr "a" |}
           (HStr "c") 2).
  vm_compute. reflexivity.
Defined.

(** X12: [get_paths_from] stores the internal ID. For every registered
    source the [source_vertex] of the result is the integer ID the
    registry holds for it, so it is the application identifier only when
    that identifier is this very integer. *)
Theorem get_paths_from_stores_internal_id
    (backend : Backend) (self : _PropertyGraphAllPairsPaths) (source : hashable) (s : Z)
    (calls : list native_call) (ssp : _PropertyGraphSingleSourcePaths) :
  _vertex_hash_to_id (app_graph self) !! source = Some s ->
  fst (AllPairsPaths_get_paths_from backend self source calls) = Ok ssp ->
  source_vertex ssp = HInt s
  /\ ssp_graph ssp = app_graph self
  /\ (source_vertex ssp = source <-> source = HInt s).
Proof.
  intros Hs Hrun.
  unfold AllPairsPaths_get_paths_from, bind in Hrun.
  rewrite (_vertex_pg_to_g_registered _ _ _ _ Hs) in Hrun. unfold call_native in Hrun.
  destruct (sp_allpairs_get_singlesource_from_vertex backend _ s); [| discriminate].
  cbn in Hrun. injection Hrun as <-. cbn.
  repeat split; congruence.
Qed.

Lemma get_paths_from_stores_internal_id_witness :
  source_vertex {| ssp_handle := 10; ssp_graph := abc_graph; _source_vertex := HInt 2 |}
  = HInt 2.
Proof.
  apply (get_paths_from_stores_internal_id abc_backend
           {| app_handle := 20; app_graph := abc_graph |} (HStr "c") 2 []
           {| ssp_handle := 10; ssp_graph := abc_graph; _source_vertex := HInt 2 |});
    vm_compute; reflexivity.
Defined.

(** ** The cache *)

(** What a slot of the object holds, as a read returns it. *)
Definition slot (st : pstate) (f : field) : pyvalue :=
  match f with
  | Weight => pyvalue_of PyFloat (_weight (self st))
  | StartVertex => pyvalue_of PyVertex (_start_vertex (self st))
  | EndVertex => pyvalue_of PyVertex (_end_vertex (self st))
  | Edges => pyvalue_of PyList (_edges (self st))
  end.

(** A read is [_cache] followed by a look at the slot. *)
Lemma read_run backend (f : field) (st : pstate) :
  read backend f st
  = match _cache backend st with
    | (Ok _, st') => (Ok (slot st' f), st')
    | (Raise e, st') => (Raise e, st')
    end.
Proof.
  destruct f; unfold read, weight, start_vertex, end_vertex, edges, bind, gets;
    destruct (_cache backend st) as [[[] | e] st']; reflexivity.
Qed.

Lemma read_populated backend (f : field) (st : pstate) :
  is_Some (_edges (self st)) -> read backend f st = (Ok (slot st f), st).
Proof. intros [l Hl]. rewrite read_run, (_cache_populated backend st l Hl). reflexivity. Qed.

Lemma read_all_populated backend (fs : list field) (st : pstate) :
  is_Some (_edges (self st)) -> read_all backend fs st = (Ok (map (slot st) fs), st).
Proof.
  intros H. induction fs as [| f fs IH]; cbn; [reflexivity |].
  unfold bind. rewrite (read_populated backend f st H), IH. reflexivity.
Qed.

(** X13: once any read has succeeded, in whatever state the object was
    before, the object is frozen: every later sequence of reads returns
    the stored slots, issues no native call and changes nothing, and the
    value just read is the stored one. *)
Theorem reads_after_first_success
    (backend : Backend) (f : field) (st st' : pstate) (v : pyvalue) :
  read backend f st = (Ok v, st') ->
  v = slot st' f
  /\ forall fs : list field, read_all backend fs st' = (Ok (map (slot st') fs), st').
Proof.
  rewrite read_run. destruct (_cache backend st) as [[[] | e] st1] eqn:Hc; [| discriminate].
  intros [= <- <-]. split; [reflexivity |].
  intros fs. apply read_all_populated. exact (_cache_ok_edges backend st st1 Hc).
Qed.

Lemma reads_after_first_success_witness :
  let st' := snd (read abc_backend Edges (PState [] (new_GraphPath 11 abc_graph))) in
  PyList [HStr "ab"; HStr "bc"] = slot st' Edges
  /\ forall fs : list field, read_all abc_backend fs st' = (Ok (map (slot st') fs), st').
Proof.
  cbv zeta.
  apply (reads_after_first_success abc_backend Edges (PState [] (new_GraphPath 11 abc_graph))).
  vm_compute. reflexivity.
Defined.

(** What [_cache] does on an object without edges, step by step. *)
Lemma _cache_unpopulated backend (st : pstate) :
  _edges (self st) = None ->
  _cache backend st
  = let st0 := PState (log st ++ [jgrapht_handles_get_graphpath (_handle (self st))]) (self st) in
    match handles_get_graphpath backend (_handle (self st)) with
    | Raise e => (Raise e, st0)
    | Ok (w, sv, ev, eit) =>
        let p1 := set_weight (Some w) (self st) in
        match _vertex_id_to_hash (_graph (self st)) !! sv with
        | None => (Raise KeyError, PState (log st0) p1)
        | Some a =>
            let p2 := set_start_vertex (Some a) p1 in
            match _vertex_id_to_hash (_graph (self st)) !! ev with
            | None => (Raise KeyError, PState (log st0) p2)
            | Some b =>
                let p3 := set_end_vertex (Some b) p2 in
                match decode_edges (_graph (self st)) eit with
                | None => (Raise KeyError, PState (log st0) p3)
                | Some es => (Ok tt, PState (log st0) (set_edges (Some es) p3))
                end
            end
        end
    end.
Proof.
  intros He. unfold _cache, bind, gets, fetch_graphpath. rewrite He. cbv zeta.
  destruct (handles_get_graphpath backend _) as [[[[w sv] ev] eit] | e]; [| reflexivity].
  cbn. unfold dict_get.
  destruct (_vertex_id_to_hash _ !! sv); [| reflexivity]. cbn.
  destruct (_vertex_id_to_hash _ !! ev); [| reflexivity]. cbn.
  rewrite list_PropertyGraphEdgeIterator_run.
  destruct (decode_edges _ eit); reflexivity.
Qed.

(** X14: a read of a new path never returns [None] and never a partly
    decoded object: when it succeeds, the engine has answered the fetch,
    both ends and all edges have been decoded, the value is the decoded
    one and all four slots are filled. *)
Theorem read_new_path_inversion
    (backend : Backend) (calls : list native_call) (h : handle) (g : PropertyGraph)
    (f : field) (v : pyvalue) (st' : pstate) :
  read backend f (PState calls (new_GraphPath h g)) = (Ok v, st') ->
  exists w sv ev eit a b es,
    handles_get_graphpath backend h = Ok (w, sv, ev, eit)
    /\ _vertex_id_to_hash g !! sv = Some a
    /\ _vertex_id_to_hash g !! ev = Some b
    /\ decode_edges g eit = Some es
    /\ v = decoded w a b es f
    /\ v <> PyNone
    /\ st' = PState (calls ++ [jgrapht_handles_get_graphpath h]) (cached h g w a b es).
Proof.
  rewrite read_run, _cache_unpopulated by reflexivity. cbn.
  destruct (handles_get_graphpath backend h) as [[[[w sv] ev] eit] | e]; [| discriminate].
  destruct (_vertex_id_to_hash g !! sv) as [a |] eqn:Ha; [| discriminate].
  destruct (_vertex_id_to_hash g !! ev) as [b |] eqn:Hb; [| discriminate].
  destruct (decode_edges g eit) as [es |] eqn:Hes; [| discriminate].
  intros [= <- <-]. exists w, sv, ev, eit, a, b, es.
  repeat apply conj; try assumption; try reflexivity;
    destruct f; (reflexivity || discriminate).
Qed.

Lemma read_new_path_inversion_witness :
  exists w sv ev eit a b es,
    handles_get_graphpath abc_backend 11 = Ok (w, sv, ev, eit)
    /\ _vertex_id_to_hash abc_graph !! sv = Some a
    /\ _vertex_id_to_hash abc_graph !! ev = Some b
    /\ decode_edges abc_graph eit = Some es
    /\ PyVertex (HStr "c") = decoded w a b es EndVertex
    /\ PyVertex (HStr "c") <> PyNone
    /\ snd (read abc_backend EndVertex (PState [] (new_GraphPath 11 abc_graph)))
       = PState ([] ++ [jgrapht_handles_get_graphpath 11]) (cached 11 abc_graph w a b es).
Proof.
  apply (read_new_path_inversion abc_backend [] 11 abc_graph EndVertex).
  vm_compute. reflexivity.
Defined.

(** ** Failed decoding *)

(** A caller that reads one field after the other and goes on after an
    exception: each read in a [try] of its own. *)
Fixpoint attempts (backend : Backend) (fs : list field) (st : pstate)
    : list (result pyvalue) * pstate :=
  match fs with
  | [] => ([], st)
  | f :: fs' =>
      let '(r, st1) := read backend f st in
      let '(rs, st2) := attempts backend fs' st1 in
      (r :: rs, st2)
  end.







(** X16: when the fetch itself fails, the exception of the engine reaches
    the caller unchanged and the object is as new as before, so a later
    read asks the engine again. *)
Theorem failed_fetch_leaves_path_new
    (backend : Backend) (calls : list native_call) (h : handle) (g : PropertyGraph)
    (e : exn) (fs : list field) :
  handles_get_graphpath backend h = Raise e ->
  attempts backend fs (PState calls (new_GraphPath h g))
  = (replicate (length fs) (Raise e),
     PState (calls ++ replicate (length fs) (jgrapht_handles_get_graphpath h))
       (new_GraphPath h g)).
Proof.
  intros Hf. revert calls. induction fs as [| f fs IH]; intros calls; cbn.
  - now rewrite app_nil_r.
  - rewrite read_run, _cache_unpopulated by reflexivity. cbn. rewrite Hf.
    rewrite IH, <- app_assoc. reflexivity.
Qed.

Lemma failed_fetch_leaves_path_new_witness :
  attempts abc_backend [Edges; Weight] (PState [] (new_GraphPath 12 abc_graph))
  = ([Raise (NativeError 1); Raise (NativeError 1)],
     PState [jgrapht_handles_get_graphpath 12; jgrapht_handles_get_graphpath 12]
       (new_GraphPath 12 abc_graph)).
Proof.
  apply (failed_fetch_leaves_path_new abc_backend [] 12 abc_graph (NativeError 1)
           [Edges; Weight]).
  vm_compute. reflexivity.
Defined.

(** ** Iterating again *)

(** X17: a path can be iterated any number of times. After one iteration
    has started, a new iteration starts from the first edge again, sees
    the same edges, asks nothing of the engine and leaves the object as
    it is, and [edges] is the list the iteration yields. *)
Theorem iter_again
    (backend : Backend) (st st' : pstate) (it : list_iterator) :
  __iter__ backend st = (Ok it, st') ->
  __iter__ backend st' = (Ok it, st')
  /\ it_index it = 0%nat
  /\ edges backend st' = (Ok (Some (iterate it)), st').
Proof.
  unfold __iter__, edges, bind, gets, ret, raise.
  destruct (_cache backend st) as [[[] | e] st1] eqn:Hc; [| discriminate].
  destruct (_edges (self st1)) as [l |] eqn:Hl; [| discriminate].
  intros [= <- <-].
  rewrite (_cache_populated backend st1 l Hl), Hl.
  rewrite iterate_list___iter__. auto.
Qed.

Lemma iter_again_witness :
  let st' := snd (__iter__ abc_backend (PState [] (new_GraphPath 11 abc_graph))) in
  let it := list___iter__ [HStr "ab"; HStr "bc"] in
  __iter__ abc_backend st' = (Ok it, st')
  /\ it_index it = 0%nat
  /\ edges abc_backend st' = (Ok (Some (iterate it)), st').
Proof.
  cbv zeta.
  apply (iter_again abc_backend (PState [] (new_GraphPath 11 abc_graph))).
  vm_compute. reflexivity.
Defined.

(** ** From all pairs to a decoded path *)

(** X18: the three levels compose. [get_paths_from] on an all-pairs result,
    then [get_path] on the single-source paths it returns, then any reads
    of the path: the target is still resolved through the registry of the
    graph, the reads return the decoded values, and the log holds one
    single-source lookup, one path lookup and, once a field is read, one
    fetch of the path, however many reads there are. (The log records
    these three kinds of call; the probes of the edge iterator during the
    one decoding are not among them.) *)
Theorem all_pairs_to_decoded_path
    (backend : Backend) (self : _PropertyGraphAllPairsPaths) (source target : hashable)
    (s t : Z) (ss gp : handle) (w : float) (sv ev : Z) (eit : list Z) (a b : hashable)
    (es : list hashable) (reads : list field) (calls : list native_call) :
  _vertex_hash_to_id (app_graph self) !! source = Some s ->
  _vertex_hash_to_id (app_graph self) !! target = Some t ->
  sp_allpairs_get_singlesource_from_vertex backend (app_handle self) s = Ok ss ->
  sp_singlesource_get_path_to_vertex backend ss t = Ok (Some gp) ->
  handles_get_graphpath backend gp = Ok (w, sv, ev, eit) ->
  _vertex_id_to_hash (app_graph self) !! sv = Some a ->
  _vertex_id_to_hash (app_graph self) !! ev = Some b ->
  decode_edges (app_graph self) eit = Some es ->
  exists ssp p calls1 calls2,
    AllPairsPaths_get_paths_from backend self source calls = (Ok ssp, calls1)
    /\ SingleSourcePaths_get_path backend ssp target calls1 = (Ok (Some p), calls2)
    /\ fst (read_all backend reads (PState calls2 p)) = Ok (map (decoded w a b es) reads)
    /\ log (snd (read_all backend reads (PState calls2 p)))
       = calls
         ++ [jgrapht_sp_allpairs_get_singlesource_from_vertex (app_handle self) s;
             jgrapht_sp_singlesource_get_path_to_vertex ss t]
         ++ match reads with [] => [] | _ :: _ => [jgrapht_handles_get_graphpath gp] end.
Proof.
  intros Hs Ht Hss Hgp Hf Ha Hb Hes.
  do 4 eexists. split; [| split].
  - apply (AllPairsPaths_get_paths_from_run backend self source s calls ss Hs Hss).
  - apply (SingleSourcePaths_get_path_run backend _ target t _ (Some gp)); [exact Ht | exact Hgp].
  - cbn [fmap option_fmap option_map ssp_graph ssp_handle].
    destruct reads as [| f fs]; cbn.
    + split; [reflexivity |]. now rewrite <- app_assoc.
    + unfold bind.
      rewrite (read_new backend _ gp (app_graph self) w sv ev eit a b es f Hf Ha Hb Hes).
      rewrite read_all_cached. cbn. split; [reflexivity |]. now rewrite <- !app_assoc.
Qed.

Lemma all_pairs_to_decoded_path_witness :
  exists ssp p calls1 calls2,
    AllPairsPaths_get_paths_from abc_backend {| app_handle := 20; app_graph := abc_graph |}
      (HStr "a") [] = (Ok ssp, calls1)
    /\ SingleSourcePaths_get_path abc_backend ssp (HStr "c") calls1 = (Ok (Some p), calls2)
    /\ fst (read_all abc_backend [Edges; Weight] (PState calls2 p))
       = Ok (map (decoded 2%float (HStr "a") (HStr "c") [HStr "ab"; HStr "bc"]) [Edges; Weight])
    /\ log (snd (read_all abc_backend [Edges; Weight] (PState calls2 p)))
       = []
         ++ [jgrapht_sp_allpairs_get_singlesource_from_vertex 20 0;
             jgrapht_sp_singlesource_get_path_to_vertex 10 2]
         ++ [jgrapht_handles_get_graphpath 11].
Proof.
  apply (all_pairs_to_decoded_path abc_backend {| app_handle := 20; app_graph := abc_graph |}
           (HStr "a") (HStr "c") 0 2 10 11 2%float 0 2 [0; 1] (HStr "a") (HStr "c")
           [HStr "ab"; HStr "bc"] [Edges; Weight] []);
    vm_compute; reflexivity.
Defined.

End PgPathsFacts.
